(** * apiTemplate: request preparation, content-type detection and
      response normalisation

    A shallow embedding of [src/template/src/api/apiTemplate.ts].

    - JavaScript values that the helper inspects ([any]) are the
      inductive [JsValue]; an object is the list of its own enumerable
      properties in iteration order (the order of [Object.entries]).
    - A string is the sequence of its code units, each below 256.
    - The [headers] record of a request is a finite map from header
      name to header value.
    - Asynchronous functions run in the monad [Async]: they either
      return or throw, and they extend a trace of the calls made to
      the transport ([fetch]) and to the body readers of the response. *)

From Stdlib Require Import ZArith Ascii String DecimalString.
From stdpp Require Import base option list strings gmap.

Local Open Scope Z_scope.
Local Open Scope stdpp_scope.

#[local] Arguments String.append !_ _ / : simpl nomatch.

(** ** Strings *)

Module Str.

Definition dquote : ascii := "034"%char.
Definition backslash : ascii := "092"%char.

Definition quoted (s : string) : string :=
  String dquote (s +:+ String dquote EmptyString).

Definition code (c : ascii) : N := N_of_ascii c.

Definition in_range (lo hi : N) (c : ascii) : bool :=
  ((lo <=? code c) && (code c <=? hi))%N.

(** [String.prototype.toLowerCase] on code units below 256: the
    letters A-Z and the Latin-1 capitals (all of 0xC0-0xDE but the
    multiplication sign 0xD7) move up by 32. *)
Definition lower_char (c : ascii) : ascii :=
  if in_range 65 90 c || (in_range 192 222 c && negb (code c =? 215)%N)
  then ascii_of_N (code c + 32)
  else c.

Fixpoint toLowerCase (s : string) : string :=
  match s with
  | EmptyString => EmptyString
  | String c s' => String (lower_char c) (toLowerCase s')
  end.

(** [s.startsWith(p)] *)
Definition startsWith (s p : string) : bool := String.prefix p s.

(** [s.includes(p)] *)
Fixpoint includes (s p : string) : bool :=
  startsWith s p ||
  match s with
  | EmptyString => false
  | String _ s' => includes s' p
  end.

(** [s.endsWith(p)] *)
Fixpoint endsWith (s p : string) : bool :=
  String.eqb s p ||
  match s with
  | EmptyString => false
  | String _ s' => endsWith s' p
  end.

Fixpoint join (sep : string) (parts : list string) : string :=
  match parts with
  | [] => EmptyString
  | [p] => p
  | p :: rest => p +:+ sep +:+ join sep rest
  end.

(** Decimal notation of an integer, as in a template literal. *)
Definition of_Z (z : Z) : string := NilZero.string_of_int (Z.to_int z).

Definition hex_digit (n : N) : ascii :=
  if (n <? 10)%N then ascii_of_N (48 + n) else ascii_of_N (87 + n).

End Str.

(** ** Values *)

(** Numbers: the integers print in decimal; [NaN] and the infinities
    are kept because truthiness and JSON treat them apart. *)
Inductive JsNumber :=
| NumInt (z : Z)
| NumNaN
| NumInfinity (negative : bool).

(** Objects supplied by the platform. *)
Inductive HostKind := HostFile | HostBlob | HostArrayBuffer.

#[warnings="-register-all"]
Inductive JsValue :=
| JsUndefined
| JsNull
| JsBoolean (b : bool)
| JsNum (n : JsNumber)
| JsString (s : string)
| JsArray (elems : list JsValue)
| JsObject (props : list (string * JsValue))
| JsHost (kind : HostKind) (handle : N) (props : list (string * JsValue)).

Definition Props := list (string * JsValue).

Fixpoint lookup_prop (k : string) (ps : Props) : option JsValue :=
  match ps with
  | [] => None
  | (k', v) :: rest => if String.eqb k' k then Some v else lookup_prop k rest
  end.

(** [typeof v] *)
Definition typeof (v : JsValue) : string :=
  match v with
  | JsUndefined => "undefined"
  | JsNull => "object"
  | JsBoolean _ => "boolean"
  | JsNum _ => "number"
  | JsString _ => "string"
  | JsArray _ | JsObject _ | JsHost _ _ _ => "object"
  end.

(** [ToBoolean v]: what [!v], [v && _] and [v || _] test. *)
Definition truthy (v : JsValue) : bool :=
  match v with
  | JsUndefined | JsNull => false
  | JsBoolean b => b
  | JsNum (NumInt z) => negb (z =? 0)
  | JsNum NumNaN => false
  | JsNum (NumInfinity _) => true
  | JsString s => negb (String.eqb s EmptyString)
  | JsArray _ | JsObject _ | JsHost _ _ _ => true
  end.

(** [a || b] *)
Definition js_or (a b : JsValue) : JsValue := if truthy a then a else b.
Infix "|||" := js_or (at level 50, left associativity).

(** [v.k] for an object [v].  The names read by the program
    ([message], [error], [detail], [msg], [title], [type], [uri]) are
    defined on no built-in prototype, so arrays and primitives give
    [undefined]. *)
Definition get (v : JsValue) (k : string) : JsValue :=
  match v with
  | JsObject ps | JsHost _ _ ps => default JsUndefined (lookup_prop k ps)
  | _ => JsUndefined
  end.

(** [v?.k] *)
Definition get_opt (v : JsValue) (k : string) : JsValue :=
  match v with
  | JsUndefined | JsNull => JsUndefined
  | _ => get v k
  end.

Definition number_to_string (n : JsNumber) : string :=
  match n with
  | NumInt z => Str.of_Z z
  | NumNaN => "NaN"
  | NumInfinity false => "Infinity"
  | NumInfinity true => "-Infinity"
  end.

Definition host_class (k : HostKind) : string :=
  match k with
  | HostFile => "File"
  | HostBlob => "Blob"
  | HostArrayBuffer => "ArrayBuffer"
  end.

(** [String(v)].  An object converts through the [toString] it
    inherits; an object with a property of its own named [toString]
    is outside the model. *)
Fixpoint js_String (v : JsValue) : string :=
  match v with
  | JsUndefined => "undefined"
  | JsNull => "null"
  | JsBoolean true => "true"
  | JsBoolean false => "false"
  | JsNum n => number_to_string n
  | JsString s => s
  | JsArray elems =>
      Str.join ","
        ((fix each (l : list JsValue) : list string :=
            match l with
            | [] => []
            | JsUndefined :: l' | JsNull :: l' => EmptyString :: each l'
            | x :: l' => js_String x :: each l'
            end) elems)
  | JsObject _ => "[object Object]"
  | JsHost k _ _ => "[object " +:+ host_class k +:+ "]"
  end.

(** ** JSON.stringify *)

Module JSON.

Definition escape (c : ascii) : string :=
  if Ascii.eqb c Str.dquote then String Str.backslash (String Str.dquote EmptyString)
  else if Ascii.eqb c Str.backslash then String Str.backslash (String Str.backslash EmptyString)
  else if (Str.code c =? 8)%N then "\b"
  else if (Str.code c =? 9)%N then "\t"
  else if (Str.code c =? 10)%N then "\n"
  else if (Str.code c =? 12)%N then "\f"
  else if (Str.code c =? 13)%N then "\r"
  else if (Str.code c <? 32)%N then
    "\u00" +:+ String (Str.hex_digit (Str.code c / 16))
                 (String (Str.hex_digit (Str.code c mod 16)) EmptyString)
  else String c EmptyString.

Fixpoint escape_all (s : string) : string :=
  match s with
  | EmptyString => EmptyString
  | String c s' => escape c +:+ escape_all s'
  end.

Definition quote (s : string) : string := Str.quoted (escape_all s).

(** [JSON.stringify(v)]; [None] stands for the result [undefined].
    An [undefined] element of an array prints as [null], an
    [undefined] property is left out, and a number that is not
    finite prints as [null]. *)
Fixpoint stringify (v : JsValue) : option string :=
  match v with
  | JsUndefined => None
  | JsNull => Some "null"
  | JsBoolean true => Some "true"
  | JsBoolean false => Some "false"
  | JsNum (NumInt z) => Some (Str.of_Z z)
  | JsNum _ => Some "null"
  | JsString s => Some (quote s)
  | JsArray elems =>
      Some ("[" +:+
            Str.join ","
              ((fix each (l : list JsValue) : list string :=
                  match l with
                  | [] => []
                  | x :: l' => default "null" (stringify x) :: each l'
                  end) elems) +:+ "]")
  | JsObject ps | JsHost _ _ ps =>
      Some ("{" +:+
            Str.join ","
              ((fix each (l : list (string * JsValue)) : list string :=
                  match l with
                  | [] => []
                  | (k, x) :: l' =>
                      match stringify x with
                      | Some s => (quote k +:+ ":" +:+ s) :: each l'
                      | None => each l'
                      end
                  end) ps) +:+ "}")
  end.

End JSON.

(** ** Errors and completions *)

(** An error object.  [status] and [data] are [None] when the object
    has no such property. *)
Record JsError := {
  name : string;
  message : string;
  status : option Z;
  data : option JsValue;
}.

(** [new Error(message)]: the argument is converted with [String]
    unless it is [undefined]. *)
Definition new_Error (msg : JsValue) : JsError :=
  {| name := "Error";
     message := match msg with JsUndefined => EmptyString | _ => js_String msg end;
     status := None;
     data := None |}.

Inductive Completion (A : Type) :=
| Return (a : A)
| Throw (e : JsError).
Arguments Return {A} a.
Arguments Throw {A} e.

(** ** HELPERS *)

Definition getErrorMessage (errorData : JsValue) (fallbackMessage : string) : JsValue :=
  if negb (truthy errorData) then JsString fallbackMessage
  else if String.eqb (typeof errorData) "string" then errorData
  else if String.eqb (typeof errorData) "object" then
    get errorData "message" |||
    get errorData "error" |||
    get errorData "detail" |||
    get errorData "msg" |||
    get errorData "title" |||
    JsString fallbackMessage
  else JsString fallbackMessage.

Definition makeApiError (msg : JsValue) (st : Z) (d : JsValue) : JsError :=
  let err := new_Error msg in
  let err := {| name := "ApiError"; message := message err;
                status := status err; data := data err |} in
  let err := {| name := name err; message := message err;
                status := Some st; data := data err |} in
  let err := {| name := name err; message := message err;
                status := status err; data := Some d |} in
  err.

#[global] Instance completion_ret : MRet Completion := @Return.
#[global] Instance completion_bind : MBind Completion :=
  fun A B f c => match c with Return a => f a | Throw e => Throw e end.
#[global] Instance completion_fmap : FMap Completion :=
  fun A B f c => match c with Return a => Return (f a) | Throw e => Throw e end.

(** ** 1) SIMPLE TYPES *)

Inductive ResponseType := Auto | Json | Blob | Text | ArrayBuffer.

Inductive Method := GET | POST | PUT | PATCH | DELETE.

(** A field of type [T | null]. *)
Inductive Nullable (A : Type) :=
| Null
| NotNull (a : A).
Arguments Null {A}.
Arguments NotNull {A} a.

(** An optional field [f?: T] is [None] when it is [undefined]. *)
Record ApiTemplateArguments := {
  baseUrl : string;
  endpoint : string;
  method : option Method;
  payload : option Props;
  isAuthenticationRequired : option bool;
  token : option (Nullable string);
  isFormData : option bool;
  responseType : option (Nullable ResponseType);
}.

#[global] Instance Method_eq_dec : EqDecision Method.
Proof. solve_decision. Defined.
#[global] Instance ResponseType_eq_dec : EqDecision ResponseType.
Proof. solve_decision. Defined.

(** ** 2) CONTENT-TYPE RULES *)

Module CONTENT_TYPE_PATTERNS.
Definition json : list string :=
  ["application/json"; "+json"].
Definition blob : list string :=
  ["application/pdf"; "application/octet-stream"; "application/zip";
   "application/vnd"; "image/"].
Definition text : list string :=
  ["text/"; "application/xml"; "text/xml"].
End CONTENT_TYPE_PATTERNS.

(** ** A) PREPARE REQUEST (headers + body) *)

(** The entries handed to [formData.append], oldest first. *)
Definition FormData := list (string * JsValue).

Definition append (formData : FormData) (key : string) (v : JsValue) : FormData :=
  formData ++ [(key, v)].

(** [string | FormData | undefined] *)
Inductive CrossBody :=
| BodyString (s : string)
| BodyFormData (formData : FormData)
| BodyUndefined.

(** [v === undefined || v === null] *)
Definition nullish (v : JsValue) : bool :=
  match v with
  | JsUndefined | JsNull => true
  | _ => false
  end.

(** [v instanceof File]; a value of kind [HostFile] exists only where
    the platform defines [File]. *)
Definition isBrowserFile (v : JsValue) : bool :=
  match v with
  | JsHost HostFile _ _ => true
  | _ => false
  end.

(** [v instanceof Blob]; a [File] is a [Blob]. *)
Definition isBrowserBlob (v : JsValue) : bool :=
  match v with
  | JsHost HostFile _ _ | JsHost HostBlob _ _ => true
  | _ => false
  end.

Definition isReactNativeFile (v : JsValue) : bool :=
  truthy v && String.eqb (typeof v) "object" &&
  String.eqb (typeof (get v "uri")) "string".

(** What is passed on when a serialisation is used as a value. *)
Definition of_stringified (o : option string) : JsValue :=
  match o with
  | Some s => JsString s
  | None => JsUndefined
  end.

Definition appendValue (key : string) (formData : FormData) (v : JsValue) : FormData :=
  if nullish v then formData
  else if isBrowserFile v || isBrowserBlob v || isReactNativeFile v then
    append formData key v
  else if String.eqb (typeof v) "object" then
    append formData key (of_stringified (JSON.stringify v))
  else
    append formData key (JsString (js_String v)).

(** The callback of [Object.entries(payload ?? {}).forEach]. *)
Definition appendEntry (formData : FormData) (entry : string * JsValue) : FormData :=
  let '(key, value) := entry in
  if nullish value then formData
  else
    match value with
    | JsArray elems => fold_left (appendValue key) elems formData
    | _ => appendValue key formData value
    end.

(** [!token] fails exactly on a non-empty string. *)
Definition truthy_token (t : option (Nullable string)) : option string :=
  match t with
  | Some (NotNull s) => if String.eqb s EmptyString then None else Some s
  | _ => None
  end.

(** [payload] as a value. *)
Definition payload_value (p : option Props) : JsValue :=
  match p with
  | Some ps => JsObject ps
  | None => JsUndefined
  end.

Definition prepareRequest (args : ApiTemplateArguments)
  : Completion (gmap string string * CrossBody) :=
  let headers : gmap string string := ∅ in
  let headers :=
    if negb (default false (isFormData args))
    then <["Content-Type" := "application/json"]> headers
    else headers in
  headers ←
    (if default false (isAuthenticationRequired args) then
       match truthy_token (token args) with
       | None => Throw (new_Error (JsString "Token is required but not available"))
       | Some tok => Return (<["Authorization" := "Bearer " +:+ tok]> headers)
       end
     else Return headers);
  let body :=
    if negb (bool_decide (method args = Some GET)) then
      if default false (isFormData args) then
        BodyFormData (fold_left appendEntry (default [] (payload args)) [])
      else
        match JSON.stringify (payload_value (payload args)) with
        | Some s => BodyString s
        | None => BodyUndefined
        end
    else BodyUndefined in
  Return (headers, body).

(** ** The transport and asynchronous functions *)

(** What [fetch] resolves to.  Each body reader is given by the
    completion of its call; [response_blob] and [response_arrayBuffer]
    are [None] on a transport that lacks the method. *)
Record Response := {
  response_ok : bool;
  response_status : Z;
  response_headers_get : string -> option string;
  response_json : Completion JsValue;
  response_text : Completion string;
  response_blob : option (Completion N);
  response_arrayBuffer : option (Completion N);
}.

(** The second argument of [fetch]. *)
Record RequestInit := {
  init_method : Method;
  init_headers : gmap string string;
  init_body : CrossBody;
}.

Inductive Event :=
| Fetch (url : string) (init : RequestInit)
| ReadJson
| ReadText
| ReadBlob
| ReadArrayBuffer.

Definition Trace := list Event.

Definition Async (A : Type) : Type := Trace -> Completion A * Trace.

#[global] Instance async_ret : MRet Async := fun A a tr => (Return a, tr).
#[global] Instance async_bind : MBind Async :=
  fun A B f m tr =>
    match m tr with
    | (Return a, tr') => f a tr'
    | (Throw e, tr') => (Throw e, tr')
    end.

Definition throw {A} (e : JsError) : Async A := fun tr => (Throw e, tr).

(** A synchronous call inside an asynchronous function. *)
Definition lift {A} (c : Completion A) : Async A := fun tr => (c, tr).

(** [await] of a call to the outside, recorded in the trace. *)
Definition perform {A} (ev : Event) (c : Completion A) : Async A :=
  fun tr => (c, tr ++ [ev]).

(** [try { m } catch { handler }] *)
Definition try_catch {A} (m : Async A) (handler : Async A) : Async A :=
  fun tr =>
    match m tr with
    | (Throw _, tr') => handler tr'
    | r => r
    end.

Definition json (response : Response) : Async JsValue :=
  perform ReadJson (response_json response).
Definition text (response : Response) : Async JsValue :=
  perform ReadText (JsString <$> response_text response).
Definition blob (reader : Completion N) : Async JsValue :=
  perform ReadBlob ((fun h => JsHost HostBlob h []) <$> reader).
Definition arrayBuffer (reader : Completion N) : Async JsValue :=
  perform ReadArrayBuffer ((fun h => JsHost HostArrayBuffer h []) <$> reader).

(** ** B) AUTO RESPONSE TYPE DETECTION *)

(** The value of header [name], or the empty string when [get] gives
    [null] (or an empty value). *)
Definition header_or_empty (response : Response) (header : string) : string :=
  default EmptyString (response_headers_get response header).

Definition isMatch (contentType pattern : string) : bool :=
  if Str.endsWith pattern "/"
  then Str.startsWith contentType pattern
  else Str.includes contentType pattern.

Fixpoint matchesAny (contentType : string) (patterns : list string) : bool :=
  match patterns with
  | [] => false
  | pattern :: rest =>
      if isMatch contentType pattern then true else matchesAny contentType rest
  end.

Definition detectResponseType (response : Response) : ResponseType :=
  let contentType := Str.toLowerCase (header_or_empty response "content-type") in
  if matchesAny contentType CONTENT_TYPE_PATTERNS.json then Json
  else if matchesAny contentType CONTENT_TYPE_PATTERNS.blob then Blob
  else if matchesAny contentType CONTENT_TYPE_PATTERNS.text then Text
  else Text.

(** ** C) PARSE SUCCESS RESPONSE *)

(** The regular expression of [getFilenameFromResponse]: the literal
    [filename=] and a double quote, matched without regard to case, a
    group of one or more code units other than the double quote, and a
    closing double quote. *)
Module FilenameRegex.

Definition fold_case (c : ascii) : ascii :=
  if Str.in_range 97 122 c then ascii_of_N (Str.code c - 32) else c.

(** Matches the literal [p] at the start of [s] without regard to
    the case of letters and gives what follows it. *)
Fixpoint literal (p s : string) : option string :=
  match p, s with
  | EmptyString, _ => Some s
  | String a p', String b s' =>
      if Ascii.eqb (fold_case a) (fold_case b) then literal p' s' else None
  | String _ _, EmptyString => None
  end.

(** The longest run without a double quote, and what follows it. *)
Fixpoint unquoted (s : string) : string * string :=
  match s with
  | EmptyString => (EmptyString, EmptyString)
  | String c s' =>
      if Ascii.eqb c Str.dquote then (EmptyString, s)
      else let '(run, rest) := unquoted s' in (String c run, rest)
  end.

(** A match that starts at the first code unit; its group 1. *)
Definition here (s : string) : option string :=
  match literal ("filename=" +:+ String Str.dquote EmptyString) s with
  | Some after =>
      match unquoted after with
      | (String c run, String _ _) => Some (String c run)
      | _ => None
      end
  | None => None
  end.

(** [exec]: the leftmost match. *)
Fixpoint exec (s : string) : option string :=
  match here s with
  | Some group => Some group
  | None =>
      match s with
      | EmptyString => None
      | String _ s' => exec s'
      end
  end.

End FilenameRegex.

Definition getFilenameFromResponse (response : Response) : JsValue :=
  match response_headers_get response "content-disposition" with
  | None => JsNull
  | Some cd =>
      if String.eqb cd EmptyString then JsNull
      else
        match FilenameRegex.exec cd with
        | Some group => JsString group
        | None => JsNull
        end
  end.

(** [v === s] for a string literal [s] *)
Definition strict_eq_string (v : JsValue) (s : string) : bool :=
  match v with
  | JsString s' => String.eqb s' s
  | _ => false
  end.

Definition throwIfOperationFailed (data : JsValue) : Async unit :=
  if strict_eq_string (get_opt data "type") "FALSE" then
    let message := getErrorMessage data "Operation failed" in
    throw (makeApiError message 400 data)
  else mret tt.

(** [blob.filename = fileName] *)
Definition set_filename (fileName : JsValue) (b : JsValue) : JsValue :=
  match b with
  | JsHost k h ps => JsHost k h (ps ++ [("filename", fileName)])
  | _ => b
  end.

Definition parseResponse (response : Response) (finalType : ResponseType)
  : Async JsValue :=
  match finalType with
  | Json =>
      data ← json response;
      _ ← throwIfOperationFailed data;
      mret data
  | Blob =>
      let fileName := getFilenameFromResponse response in
      match response_blob response with
      | Some reader =>
          b ← blob reader;
          mret (set_filename fileName b)
      | None =>
          match response_arrayBuffer response with
          | Some reader => arrayBuffer reader
          | None => text response
          end
      end
  | ArrayBuffer =>
      match response_arrayBuffer response with
      | Some reader => arrayBuffer reader
      | None => text response
      end
  | Text | Auto => text response
  end.

(** ** D) MAIN TEMPLATE *)

Section MainTemplate.

(** The transport: the completion of [fetch(url, init)]. *)
Variable fetch_result : string -> RequestInit -> Completion Response.

Definition fetch (url : string) (init : RequestInit) : Async Response :=
  perform (Fetch url init) (fetch_result url init).

Definition normalizedArgs (args : ApiTemplateArguments) (method : Method)
  : ApiTemplateArguments :=
  {| baseUrl := baseUrl args;
     endpoint := endpoint args;
     method := Some method;
     payload := Some (default [] (payload args));
     isAuthenticationRequired := Some (default false (isAuthenticationRequired args));
     token := Some (default Null (token args));
     isFormData := Some (default false (isFormData args));
     responseType := responseType args |}.

(** The choice of [finalType]: an explicit type other than [auto]
    is taken, otherwise the response is classified. *)
Definition finalType_of (responseType : Nullable ResponseType)
    (response : Response) : ResponseType :=
  match responseType with
  | NotNull rt =>
      if negb (bool_decide (rt = Auto)) then rt
      else detectResponseType response
  | Null => detectResponseType response
  end.

Definition apiTemplate (args : ApiTemplateArguments) : Async JsValue :=
  let method := default GET (method args) in
  let responseType := default (NotNull Auto) (responseType args) in
  if String.eqb (baseUrl args) EmptyString then
    throw (new_Error (JsString "Base URL not found"))
  else
    let fullUrl := baseUrl args +:+ endpoint args in
    '(headers, body) ← lift (prepareRequest (normalizedArgs args method));
    response ← fetch fullUrl
      {| init_method := method; init_headers := headers; init_body := body |};
    if negb (response_ok response) then
      let ct := Str.toLowerCase (header_or_empty response "content-type") in
      errorData ←
        try_catch
          (if Str.includes ct "application/json" || Str.includes ct "+json"
           then json response
           else text response)
          (mret JsNull);
      let message :=
        getErrorMessage errorData
          ("API error (" +:+ Str.of_Z (response_status response) +:+ ")") in
      throw (makeApiError message (response_status response) errorData)
    else
      let finalType := finalType_of responseType response in
      parseResponse response finalType.

End MainTemplate.

(** * Specification-side definitions *)

(** ** Matching, as the classifier's rules word it *)

Definition is_prefix_of (p s : string) : Prop :=
  ∃ rest, s = p +:+ rest.

Definition is_substring_of (p s : string) : Prop :=
  ∃ before rest, s = before +:+ p +:+ rest.

Definition ends_in_slash (p : string) : Prop :=
  ∃ before, p = before +:+ "/".

(** A pattern ending in a slash matches by prefix, any other pattern
    by substring. *)
Definition pattern_matches (contentType pattern : string) : Prop :=
  (ends_in_slash pattern ∧ is_prefix_of pattern contentType) ∨
  (¬ ends_in_slash pattern ∧ is_substring_of pattern contentType).

Definition category_matches (contentType : string) (patterns : list string) : Prop :=
  ∃ pattern, pattern ∈ patterns ∧ pattern_matches contentType pattern.

(** A response about which only the content type is known. *)
Definition response_of_content_type (contentType : option string) : Response :=
  {| response_ok := true;
     response_status := 200;
     response_headers_get := fun header =>
       if String.eqb header "content-type" then contentType else None;
     response_json := Return JsNull;
     response_text := Return EmptyString;
     response_blob := None;
     response_arrayBuffer := None |}.

(** ** Error-message extraction *)

(** The fields probed for a message, in priority order. *)
Definition probed_fields : list string :=
  ["message"; "error"; "detail"; "msg"; "title"].

(** The first value that is not empty.  Empty is what the program's
    [||] skips: [undefined], [null], [false], zero, [NaN] and the
    empty string; among strings, exactly the empty one. *)
Fixpoint first_non_empty (vs : list JsValue) : option JsValue :=
  match vs with
  | [] => None
  | v :: rest => if truthy v then Some v else first_non_empty rest
  end.

(** ** Failures *)

(** The error object with the three fields [message], [status] and
    [data]. *)
Definition api_error (msg : string) (st : Z) (d : JsValue) : JsError :=
  {| name := "ApiError"; message := msg; status := Some st; data := Some d |}.

(** The error object exposes [status] and [data] besides its message. *)
Definition exposes_status_and_data (e : JsError) : Prop :=
  is_Some (status e) ∧ is_Some (data e).

(** The error object carries a message only. *)
Definition message_only (e : JsError) : Prop :=
  status e = None ∧ data e = None.

(** The body is an object whose field [type] is the string [FALSE]. *)
Definition has_failure_marker (body : JsValue) : bool :=
  match body with
  | JsObject ps | JsHost _ _ ps =>
      match lookup_prop "type" ps with
      | Some (JsString s) => String.eqb s "FALSE"
      | _ => false
      end
  | _ => false
  end.

(** What a body read leaves as error payload: its value, or [null]
    when the read throws. *)
Definition or_null (read : Completion JsValue) : JsValue :=
  match read with
  | Return v => v
  | Throw _ => JsNull
  end.

(** The content type, compared without regard to case, names JSON. *)
Definition declares_json (contentType : string) : Prop :=
  is_substring_of "application/json" (Str.toLowerCase contentType) ∨
  is_substring_of "+json" (Str.toLowerCase contentType).

(** The token is missing ([undefined] or [null]) or empty. *)
Definition token_missing_or_empty (t : option (Nullable string)) : Prop :=
  t = None ∨ t = Some Null ∨ t = Some (NotNull EmptyString).

(** ** The request that reaches the transport *)

Definition full_url (args : ApiTemplateArguments) : string :=
  baseUrl args +:+ endpoint args.

Definition effective_method (args : ApiTemplateArguments) : Method :=
  default GET (method args).

(** Request preparation as [apiTemplate] runs it: on the arguments
    with their defaults filled in. *)
Definition prepared (args : ApiTemplateArguments)
  : Completion (gmap string string * CrossBody) :=
  prepareRequest (normalizedArgs args (effective_method args)).

Definition request_init (args : ApiTemplateArguments)
    (p : gmap string string * CrossBody) : RequestInit :=
  {| init_method := effective_method args;
     init_headers := p.1;
     init_body := p.2 |}.

(** ** Multipart encoding, as the per-value rule words it *)

(** A platform [File] or [Blob], or an object with a string [uri]. *)
Definition file_like (v : JsValue) : bool :=
  match v with
  | JsHost HostFile _ _ | JsHost HostBlob _ _ => true
  | JsObject ps | JsHost HostArrayBuffer _ ps =>
      match lookup_prop "uri" ps with
      | Some (JsString _) => true
      | _ => false
      end
  | _ => false
  end.

(** The values appended for one value: none for [null] and
    [undefined], the value itself when file-like, the JSON text of any
    other object, the string form of a scalar. *)
Definition form_values (v : JsValue) : list JsValue :=
  match v with
  | JsUndefined | JsNull => []
  | JsArray _ | JsObject _ | JsHost _ _ _ =>
      if file_like v then [v]
      else [of_stringified (JSON.stringify v)]
  | JsBoolean _ | JsNum _ | JsString _ => [JsString (js_String v)]
  end.

(** The entries of one payload field: a sequence is expanded element
    by element, any other value stands alone. *)
Definition form_entries (entry : string * JsValue) : list (string * JsValue) :=
  match entry.2 with
  | JsArray elems => pair entry.1 <$> (elems ≫= form_values)
  | value => pair entry.1 <$> form_values value
  end.

Definition multipart (payload : Props) : FormData :=
  payload ≫= form_entries.

(** ** Sample calls *)

Definition sample_args : ApiTemplateArguments :=
  {| baseUrl := "https://api.example.com";
     endpoint := "/items";
     method := Some POST;
     payload := None;
     isAuthenticationRequired := None;
     token := None;
     isFormData := None;
     responseType := None |}.

Definition sample_response (ok : bool) (st : Z) (contentType : option string)
    (body : Completion JsValue) (raw : Completion string) : Response :=
  {| response_ok := ok;
     response_status := st;
     response_headers_get := fun header =>
       if String.eqb header "content-type" then contentType else None;
     response_json := body;
     response_text := raw;
     response_blob := None;
     response_arrayBuffer := None |}.

Definition syntax_error : JsError :=
  {| name := "SyntaxError"; message := "Unexpected token";
     status := None; data := None |}.

(** What request preparation gives for [sample_args]. *)
Definition sample_prepared : gmap string string * CrossBody :=
  (<["Content-Type" := "application/json"]> ∅, BodyString "{}").

Definition sample_fetch : Event :=
  Fetch (full_url sample_args) (request_init sample_args sample_prepared).

(** A success body that carries the failure marker. *)
Definition marked_body : JsValue :=
  JsObject [("type", JsString "FALSE"); ("error", JsString "bad input")].

Definition not_found_body : JsValue :=
  JsObject [("detail", JsString "not found")].

Definition marked_response : Response :=
  sample_response true 200 (Some "application/json")
    (Return marked_body) (Throw syntax_error).

Definition not_found_response : Response :=
  sample_response false 404 (Some "application/json")
    (Return not_found_body) (Throw syntax_error).

(** Authentication is asked for and no token is given. *)
Definition unauthenticated_args : ApiTemplateArguments :=
  {| baseUrl := "https://api.example.com";
     endpoint := "/me";
     method := None;
     payload := None;
     isAuthenticationRequired := Some true;
     token := Some Null;
     isFormData := None;
     responseType := None |}.

(** The base URL is empty. *)
Definition args_without_base_url : ApiTemplateArguments :=
  {| baseUrl := EmptyString;
     endpoint := "/items";
     method := None;
     payload := None;
     isAuthenticationRequired := None;
     token := None;
     isFormData := None;
     responseType := None |}.

(** A multipart upload with a token. *)
Definition upload_args : ApiTemplateArguments :=
  {| baseUrl := "https://api.example.com";
     endpoint := "/upload";
     method := Some POST;
     payload :=
       Some [("tags", JsArray [JsString "a"; JsString "b"]);
             ("note", JsNull);
             ("meta", JsObject [("x", JsNum (NumInt 1))])];
     isAuthenticationRequired := Some true;
     token := Some (NotNull "s3cr3t");
     isFormData := Some true;
     responseType := None |}.

(** What request preparation gives for [upload_args]. *)
Definition upload_prepared : gmap string string * CrossBody :=
  (<["Authorization" := "Bearer s3cr3t"]> ∅,
   BodyFormData
     [("tags", JsString "a"); ("tags", JsString "b");
      ("meta", JsString ("{" +:+ Str.quoted "x" +:+ ":1}"))]).

(** A download: a PDF with a file name, on a transport with [blob]. *)
Definition download_response : Response :=
  {| response_ok := true;
     response_status := 200;
     response_headers_get := fun header =>
       if String.eqb header "content-type" then Some "application/pdf"
       else if String.eqb header "content-disposition"
       then Some ("attachment; FileName=" +:+ Str.quoted "report.pdf")
       else None;
     response_json := Throw syntax_error;
     response_text := Return "%PDF";
     response_blob := Some (Return 7%N);
     response_arrayBuffer := Some (Return 8%N) |}.

(** ** Further notions used below *)

(** The event is a read of the response body. *)
Definition is_read (ev : Event) : bool :=
  match ev with
  | Fetch _ _ => false
  | ReadJson | ReadText | ReadBlob | ReadArrayBuffer => true
  end.

(** No code unit of the string is a double quote. *)
Definition quote_free (s : string) : Prop :=
  ∀ before rest, s ≠ before +:+ String Str.dquote rest.

Fixpoint fold_case_all (s : string) : string :=
  match s with
  | EmptyString => EmptyString
  | String c s' => String (FilenameRegex.fold_case c) (fold_case_all s')
  end.

(** The two strings are equal up to the case of the letters a to z. *)
Definition same_ignoring_case (a b : string) : Prop :=
  fold_case_all a = fold_case_all b.

(** The payload value is neither [null], [undefined] nor a sequence. *)
Definition plain_value (v : JsValue) : Prop :=
  nullish v = false ∧ ∀ elems, v ≠ JsArray elems.

(** ** Further sample calls *)

(** A search: the default method, a payload, and [isFormData] set. *)
Definition search_args : ApiTemplateArguments :=
  {| baseUrl := "https://api.example.com";
     endpoint := "/search";
     method := None;
     payload := Some [("q", JsString "pen")];
     isAuthenticationRequired := None;
     token := None;
     isFormData := Some true;
     responseType := None |}.

(** The same call as [sample_args], asking for the raw text. *)
Definition text_args : ApiTemplateArguments :=
  {| baseUrl := "https://api.example.com";
     endpoint := "/items";
     method := Some POST;
     payload := None;
     isAuthenticationRequired := None;
     token := None;
     isFormData := None;
     responseType := Some (NotNull Text) |}.

Definition network_error : JsError :=
  {| name := "TypeError"; message := "Network request failed";
     status := None; data := None |}.

(** A marked JSON body whose text can be read as well. *)
Definition marked_text_response : Response :=
  sample_response true 200 (Some "application/json")
    (Return marked_body) (Return "{...}").

(** A success response declared as JSON whose body does not parse. *)
Definition broken_json_response : Response :=
  sample_response true 200 (Some "application/json")
    (Throw syntax_error) (Return "<html>").

(** A failure with no content type and an empty body. *)
Definition empty_error_response : Response :=
  sample_response false 502 None (Throw syntax_error) (Return EmptyString).

(** An image served by a transport that has neither [blob] nor
    [arrayBuffer]. *)
Definition legacy_image_response : Response :=
  sample_response true 200 (Some "image/png")
    (Throw syntax_error) (Return "PNG").

(** A success body with the marker and nothing else. *)
Definition bare_marked_response : Response :=
  sample_response true 200 (Some "application/json")
    (Return (JsObject [("type", JsString "FALSE")])) (Throw syntax_error).

(** Fields whose values are falsy scalars. *)
Definition falsy_payload : Props :=
  [("count", JsNum (NumInt 0)); ("flag", JsBoolean false);
   ("note", JsString EmptyString)].

(** The upload of [upload_args] under another token. *)
Definition upload_args_other_token : ApiTemplateArguments :=
  {| baseUrl := baseUrl upload_args;
     endpoint := endpoint upload_args;
     method := method upload_args;
     payload := payload upload_args;
     isAuthenticationRequired := Some true;
     token := Some (NotNull "0th3r");
     isFormData := isFormData upload_args;
     responseType := None |}.

Definition upload_prepared_other_token : gmap string string * CrossBody :=
  (<["Authorization" := "Bearer 0th3r"]> ∅,
   BodyFormData
     [("tags", JsString "a"); ("tags", JsString "b");
      ("meta", JsString ("{" +:+ Str.quoted "x" +:+ ":1}"))]).

(** The two calls are the same but for [responseType]. *)
Definition same_request (a1 a2 : ApiTemplateArguments) : Prop :=
  baseUrl a1 = baseUrl a2 ∧ endpoint a1 = endpoint a2 ∧
  method a1 = method a2 ∧ payload a1 = payload a2 ∧
  isAuthenticationRequired a1 = isAuthenticationRequired a2 ∧
  token a1 = token a2 ∧ isFormData a1 = isFormData a2.

(** [responseType] is absent, [null] or [auto]. *)
Definition automatic (rt : option (Nullable ResponseType)) : Prop :=
  rt = None ∨ rt = Some Null ∨ rt = Some (NotNull Auto).

(** The same call as [sample_args] with [responseType: null]. *)
Definition null_type_args : ApiTemplateArguments :=
  {| baseUrl := "https://api.example.com";
     endpoint := "/items";
     method := Some POST;
     payload := None;
     isAuthenticationRequired := None;
     token := None;
     isFormData := None;
     responseType := Some Null |}.

(** * Strings: the boolean tests decide the relations *)

Lemma append_nil_r (s : string) : s +:+ EmptyString = s.
Proof. induction s as [|c s IH]; simpl; [done | by rewrite IH]. Qed.

Lemma append_assoc (a b c : string) : (a +:+ b) +:+ c = a +:+ b +:+ c.
Proof. induction a as [|x a IH]; simpl; [done | by rewrite IH]. Qed.

Lemma startsWith_spec (s p : string) :
  Str.startsWith s p = true ↔ is_prefix_of p s.
Proof.
  unfold Str.startsWith, is_prefix_of. revert s.
  induction p as [|a p IH]; intros s.
  - destruct s; simpl; split; eauto.
  - destruct s as [|b s]; simpl.
    + split; [done | intros [rest H]; discriminate H].
    + destruct (ascii_dec a b) as [->|Hne].
      * rewrite IH. split; intros [rest H]; exists rest.
        -- by rewrite H.
        -- by injection H.
      * split; [done | intros [rest H]; injection H; congruence].
Qed.

Lemma includes_spec (s p : string) :
  Str.includes s p = true ↔ is_substring_of p s.
Proof.
  unfold is_substring_of. induction s as [|c s IH]; cbn [Str.includes].
  - rewrite orb_false_r, startsWith_spec. split.
    + intros [rest H]. exists EmptyString, rest. done.
    + intros [before [rest H]]. destruct before; simpl in H.
      * by exists rest.
      * discriminate H.
  - rewrite orb_true_iff, startsWith_spec, IH. split.
    + intros [[rest H] | [before [rest H]]].
      * exists EmptyString, rest. done.
      * exists (String c before), rest. simpl. by rewrite H.
    + intros [before [rest H]]. destruct before as [|b before]; simpl in H.
      * left. by exists rest.
      * right. injection H as _ H. by exists before, rest.
Qed.

Lemma endsWith_spec (s p : string) :
  Str.endsWith s p = true ↔ ∃ before, s = before +:+ p.
Proof.
  induction s as [|c s IH]; cbn [Str.endsWith].
  - rewrite orb_false_r, String.eqb_eq. split.
    + intros <-. by exists EmptyString.
    + intros [before H]. destruct before; simpl in H; [done | discriminate H].
  - rewrite orb_true_iff, String.eqb_eq, IH. split.
    + intros [<- | [before H]].
      * by exists EmptyString.
      * exists (String c before). simpl. by rewrite H.
    + intros [before H]. destruct before as [|b before]; simpl in H.
      * by left.
      * right. injection H as _ H. by exists before.
Qed.

Lemma isMatch_spec (contentType pattern : string) :
  isMatch contentType pattern = true ↔ pattern_matches contentType pattern.
Proof.
  unfold isMatch, pattern_matches, ends_in_slash.
  destruct (Str.endsWith pattern "/") eqn:E.
  - apply endsWith_spec in E. rewrite startsWith_spec. tauto.
  - assert (¬ ∃ before, pattern = before +:+ "/") as Hno.
    { intros H. apply endsWith_spec in H. congruence. }
    rewrite includes_spec. tauto.
Qed.

Lemma matchesAny_spec (contentType : string) (patterns : list string) :
  matchesAny contentType patterns = true ↔ category_matches contentType patterns.
Proof.
  unfold category_matches. induction patterns as [|p ps IH]; simpl.
  - split; [done | intros [q [H _]]; by apply not_elem_of_nil in H].
  - destruct (isMatch contentType p) eqn:E.
    + split; [intros _ | done]. exists p. split; [left | by apply isMatch_spec].
    + rewrite IH. split.
      * intros [q [Hq Hm]]. exists q. split; [by right | done].
      * intros [q [Hq Hm]]. apply elem_of_cons in Hq as [-> | Hq].
        -- apply isMatch_spec in Hm. congruence.
        -- by exists q.
Qed.

(** * The classifier *)

Lemma detectResponseType_cases (response : Response) :
  let contentType := Str.toLowerCase (header_or_empty response "content-type") in
  detectResponseType response =
    if matchesAny contentType CONTENT_TYPE_PATTERNS.json then Json
    else if matchesAny contentType CONTENT_TYPE_PATTERNS.blob then Blob
    else Text.
Proof.
  unfold detectResponseType. cbv zeta.
  repeat match goal with |- context [if ?b then _ else _] => destruct b end; done.
Qed.

Lemma detectResponseType_bool (response : Response) :
  let contentType := Str.toLowerCase (header_or_empty response "content-type") in
  (detectResponseType response = Json ↔
     matchesAny contentType CONTENT_TYPE_PATTERNS.json = true) ∧
  (detectResponseType response = Blob ↔
     matchesAny contentType CONTENT_TYPE_PATTERNS.json ≠ true ∧
     matchesAny contentType CONTENT_TYPE_PATTERNS.blob = true) ∧
  (detectResponseType response = Text ↔
     matchesAny contentType CONTENT_TYPE_PATTERNS.json ≠ true ∧
     matchesAny contentType CONTENT_TYPE_PATTERNS.blob ≠ true).
Proof.
  intros contentType. rewrite detectResponseType_cases. cbv zeta.
  fold contentType.
  destruct (matchesAny contentType CONTENT_TYPE_PATTERNS.json);
    destruct (matchesAny contentType CONTENT_TYPE_PATTERNS.blob);
    repeat split; try done; try (intros [? ?]; done); try congruence.
Qed.

(** C3.  The classifier is a total function of the response headers.
    It reads the [content-type] header, takes a missing header for the
    empty string and lowers its case, so that headers equal up to case
    are classified alike.  The rule table is checked in the order
    json, blob, text: the answer is json exactly when a json pattern
    matches; blob exactly when no json pattern and some blob pattern
    matches; text in every other case, whether a text pattern matches
    or none does.  A pattern ending in a slash matches by prefix, any
    other pattern by substring.  In particular
    [application/ld+json] is json, [image/png] is blob,
    [text/plain; charset=utf-8] is text and [application/unknown-x] is
    text. *)
Theorem detectResponseType_classifier (response : Response) :
  let contentType :=
    Str.toLowerCase
      (default EmptyString (response_headers_get response "content-type")) in
  (detectResponseType response = Json ↔
     category_matches contentType CONTENT_TYPE_PATTERNS.json) ∧
  (detectResponseType response = Blob ↔
     ¬ category_matches contentType CONTENT_TYPE_PATTERNS.json ∧
     category_matches contentType CONTENT_TYPE_PATTERNS.blob) ∧
  (detectResponseType response = Text ↔
     ¬ category_matches contentType CONTENT_TYPE_PATTERNS.json ∧
     ¬ category_matches contentType CONTENT_TYPE_PATTERNS.blob) ∧
  (∀ other : Response,
     Str.toLowerCase
       (default EmptyString (response_headers_get other "content-type"))
     = contentType →
     detectResponseType other = detectResponseType response) ∧
  detectResponseType (response_of_content_type None)
  = detectResponseType (response_of_content_type (Some EmptyString)) ∧
  detectResponseType (response_of_content_type (Some "application/ld+json")) = Json ∧
  detectResponseType (response_of_content_type (Some "image/png")) = Blob ∧
  detectResponseType (response_of_content_type (Some "text/plain; charset=utf-8")) = Text ∧
  detectResponseType (response_of_content_type (Some "application/unknown-x")) = Text.
Proof.
  intros contentType.
  fold (header_or_empty response "content-type") in contentType.
  destruct (detectResponseType_bool response) as (Hj & Hb & Ht).
  cbv zeta in Hj, Hb, Ht. fold contentType in Hj, Hb, Ht.
  rewrite matchesAny_spec in Hj.
  rewrite !matchesAny_spec in Hb.
  rewrite !matchesAny_spec in Ht.
  split; [exact Hj |]. split; [exact Hb |]. split; [exact Ht |].
  split; [| repeat split; reflexivity].
  intros other Ho.
  rewrite (detectResponseType_cases other), (detectResponseType_cases response).
  cbv zeta. unfold header_or_empty. fold (header_or_empty response "content-type").
  fold contentType. by rewrite Ho.
Qed.

(** C9.  Automatic classification never yields arrayBuffer: the
    classifier answers json, blob or text for every response.  Hence
    the final type chosen by [apiTemplate] is arrayBuffer exactly when
    the caller set [responseType] to arrayBuffer. *)
Theorem arrayBuffer_only_on_request (response : Response) :
  (detectResponseType response = Json ∨
   detectResponseType response = Blob ∨
   detectResponseType response = Text) ∧
  (∀ args : ApiTemplateArguments,
     finalType_of (default (NotNull Auto) (responseType args)) response
     = ArrayBuffer
     ↔ responseType args = Some (NotNull ArrayBuffer)).
Proof.
  assert (detectResponseType response = Json ∨
          detectResponseType response = Blob ∨
          detectResponseType response = Text) as Hd.
  { rewrite detectResponseType_cases. cbv zeta.
    repeat match goal with |- context [if ?b then _ else _] => destruct b end; auto. }
  split; [exact Hd |].
  intros args. destruct (responseType args) as [[|rt]|]; simpl.
  - split; [intros H | done]. destruct Hd as [E|[E|E]]; congruence.
  - destruct rt; simpl; try (split; congruence).
    split; [intros H | done]. destruct Hd as [E|[E|E]]; congruence.
  - split; [intros H | done]. destruct Hd as [E|[E|E]]; congruence.
Qed.

(** * Error-message extraction *)

Lemma truthy_string (s : string) : truthy (JsString s) = true ↔ s ≠ EmptyString.
Proof.
  simpl. rewrite negb_true_iff. split.
  - intros H ->. discriminate H.
  - intros H. by apply String.eqb_neq.
Qed.

Lemma js_or_chain (a b c d e f : JsValue) :
  a ||| b ||| c ||| d ||| e ||| f = default f (first_non_empty [a; b; c; d; e]).
Proof.
  unfold js_or. simpl.
  destruct (truthy a) eqn:Ea; rewrite ?Ea;
    destruct (truthy b) eqn:Eb; rewrite ?Ea, ?Eb;
    destruct (truthy c) eqn:Ec; rewrite ?Ea, ?Eb, ?Ec;
    destruct (truthy d) eqn:Ed; rewrite ?Ea, ?Eb, ?Ec, ?Ed;
    destruct (truthy e) eqn:Ee; rewrite ?Ea, ?Eb, ?Ec, ?Ed, ?Ee; reflexivity.
Qed.

Lemma getErrorMessage_defined (errorData : JsValue) (fallbackMessage : string) :
  getErrorMessage errorData fallbackMessage ≠ JsUndefined.
Proof.
  unfold getErrorMessage.
  destruct (truthy errorData) eqn:Et; simpl; [| done].
  destruct (String.eqb (typeof errorData) "string"); [by destruct errorData |].
  destruct (String.eqb (typeof errorData) "object"); [| done].
  rewrite js_or_chain.
  generalize [get errorData "message"; get errorData "error";
              get errorData "detail"; get errorData "msg"; get errorData "title"].
  intros vs. induction vs as [|v vs IH]; simpl; [done |].
  destruct (truthy v) eqn:Ev; [| exact IH]. simpl. by destruct v.
Qed.

(** C8.  Error-message extraction, its cases read in order: a falsy
    payload gives the fallback; a payload that is a (non-empty) string
    is returned itself; for an object the result is the first
    non-empty value among the fields [message], [error], [detail],
    [msg], [title], probed in that order, and the fallback when none
    of the five holds one; every other shape gives the fallback.  The
    last two equations show a probe on concrete payloads. *)
Theorem getErrorMessage_extraction (payload : JsValue) (fallback : string) :
  (truthy payload = false →
     getErrorMessage payload fallback = JsString fallback) ∧
  (∀ s, payload = JsString s → s ≠ EmptyString →
     getErrorMessage payload fallback = payload) ∧
  (truthy payload = true → typeof payload = "object" →
     getErrorMessage payload fallback
     = default (JsString fallback)
         (first_non_empty (get payload <$> probed_fields))) ∧
  (truthy payload = true →
     typeof payload ≠ "string" → typeof payload ≠ "object" →
     getErrorMessage payload fallback = JsString fallback) ∧
  getErrorMessage
    (JsObject [("title", JsString "t"); ("message", JsString EmptyString);
               ("detail", JsString "not found")]) fallback
  = JsString "not found" ∧
  getErrorMessage (JsObject [("code", JsNum (NumInt 7))]) fallback
  = JsString fallback.
Proof.
  unfold getErrorMessage. repeat split.
  - intros H. by rewrite H.
  - intros s -> Hs. apply truthy_string in Hs. by rewrite Hs.
  - intros Ht Ho. rewrite Ht, js_or_chain. simpl negb. cbv iota.
    destruct payload; try discriminate Ho; try discriminate Ht; reflexivity.
  - intros Ht Hs Ho. rewrite Ht. simpl negb. cbv iota.
    destruct payload; try done; try discriminate Ht.
Qed.

(** * The orchestrator, path by path *)

Lemma makeApiError_fields (msg : JsValue) (st : Z) (d : JsValue) :
  msg ≠ JsUndefined →
  makeApiError msg st d = api_error (js_String msg) st d.
Proof. intros H. by destruct msg. Qed.

Lemma apiTemplate_base_url_missing fetch_result (args : ApiTemplateArguments) (tr : Trace) :
  baseUrl args = EmptyString →
  apiTemplate fetch_result args tr
  = (Throw (new_Error (JsString "Base URL not found")), tr).
Proof. intros H. unfold apiTemplate. by rewrite H. Qed.

Lemma apiTemplate_prepare_throws fetch_result (args : ApiTemplateArguments)
    (e : JsError) (tr : Trace) :
  baseUrl args ≠ EmptyString →
  prepared args = Throw e →
  apiTemplate fetch_result args tr = (Throw e, tr).
Proof.
  intros Hb Hp. unfold apiTemplate. apply String.eqb_neq in Hb. rewrite Hb.
  unfold prepared, effective_method in Hp.
  unfold mbind, async_bind, lift. by rewrite Hp.
Qed.

Lemma apiTemplate_fetch_throws fetch_result (args : ApiTemplateArguments)
    (p : gmap string string * CrossBody) (e : JsError) (tr : Trace) :
  baseUrl args ≠ EmptyString →
  prepared args = Return p →
  fetch_result (full_url args) (request_init args p) = Throw e →
  apiTemplate fetch_result args tr
  = (Throw e, tr ++ [Fetch (full_url args) (request_init args p)]).
Proof.
  intros Hb Hp Hf. unfold apiTemplate. apply String.eqb_neq in Hb. rewrite Hb.
  unfold prepared, effective_method in Hp.
  unfold mbind, async_bind, lift. rewrite Hp. destruct p as [headers body].
  unfold fetch, perform. unfold full_url, request_init, effective_method in Hf.
  simpl in Hf. by rewrite Hf.
Qed.

Lemma apiTemplate_http_failure fetch_result (args : ApiTemplateArguments)
    (p : gmap string string * CrossBody) (response : Response) (tr : Trace) :
  baseUrl args ≠ EmptyString →
  prepared args = Return p →
  fetch_result (full_url args) (request_init args p) = Return response →
  response_ok response = false →
  apiTemplate fetch_result args tr
  = let ct := Str.toLowerCase (header_or_empty response "content-type") in
    let fallback := "API error (" +:+ Str.of_Z (response_status response) +:+ ")" in
    if Str.includes ct "application/json" || Str.includes ct "+json" then
      let errorData := or_null (response_json response) in
      (Throw (api_error (js_String (getErrorMessage errorData fallback))
                (response_status response) errorData),
       tr ++ [Fetch (full_url args) (request_init args p); ReadJson])
    else
      let errorData := or_null (JsString <$> response_text response) in
      (Throw (api_error (js_String (getErrorMessage errorData fallback))
                (response_status response) errorData),
       tr ++ [Fetch (full_url args) (request_init args p); ReadText]).
Proof.
  intros Hb Hp Hf Hok. unfold apiTemplate. apply String.eqb_neq in Hb. rewrite Hb.
  unfold prepared, effective_method in Hp.
  unfold mbind, async_bind, lift. rewrite Hp. destruct p as [headers body].
  unfold fetch, perform. unfold full_url, request_init, effective_method in Hf.
  simpl in Hf. rewrite Hf, Hok. simpl negb. cbv iota zeta.
  unfold full_url, request_init, effective_method. simpl fst. simpl snd.
  unfold try_catch, json, text, perform, throw, mret, async_ret.
  destruct (Str.includes _ "application/json" || Str.includes _ "+json").
  - destruct (response_json response) as [v|e]; simpl or_null;
      unfold negb; cbv beta iota;
      rewrite makeApiError_fields by apply getErrorMessage_defined;
      by rewrite <- app_assoc.
  - destruct (response_text response) as [v|e];
      unfold fmap, completion_fmap, or_null, negb; cbv beta iota;
      rewrite makeApiError_fields by apply getErrorMessage_defined;
      by rewrite <- app_assoc.
Qed.

Lemma apiTemplate_success fetch_result (args : ApiTemplateArguments)
    (p : gmap string string * CrossBody) (response : Response) (tr : Trace) :
  baseUrl args ≠ EmptyString →
  prepared args = Return p →
  fetch_result (full_url args) (request_init args p) = Return response →
  response_ok response = true →
  apiTemplate fetch_result args tr
  = parseResponse response
      (finalType_of (default (NotNull Auto) (responseType args)) response)
      (tr ++ [Fetch (full_url args) (request_init args p)]).
Proof.
  intros Hb Hp Hf Hok. unfold apiTemplate. apply String.eqb_neq in Hb. rewrite Hb.
  unfold prepared, effective_method in Hp.
  unfold mbind, async_bind, lift. rewrite Hp. destruct p as [headers body].
  unfold fetch, perform. unfold full_url, request_init, effective_method in Hf.
  simpl in Hf. by rewrite Hf, Hok.
Qed.

Lemma failure_marker_test (data : JsValue) :
  strict_eq_string (get_opt data "type") "FALSE" = has_failure_marker data.
Proof.
  destruct data as [| | | | | |ps|k h ps]; try reflexivity;
    unfold get_opt, get, has_failure_marker;
    by destruct (lookup_prop "type" ps) as [[]|].
Qed.

Lemma parseResponse_json (response : Response) (body : JsValue) (tr : Trace) :
  response_json response = Return body →
  parseResponse response Json tr
  = (if has_failure_marker body
     then Throw (api_error (js_String (getErrorMessage body "Operation failed"))
                   400 body)
     else Return body,
     tr ++ [ReadJson]).
Proof.
  intros Hj. unfold parseResponse, json, perform, mbind, async_bind. rewrite Hj.
  unfold throwIfOperationFailed. rewrite failure_marker_test.
  destruct (has_failure_marker body); [| done].
  unfold throw. by rewrite makeApiError_fields by apply getErrorMessage_defined.
Qed.

(** * Logical failure inside a successful JSON response *)

(** C1.  For a response with a success status whose final type is json,
    whether requested or found by the classifier: when the parsed body
    is an object whose field [type] is the string [FALSE],
    [parseResponse], and with it [apiTemplate], rejects with an error of
    status 400 whose data is the whole parsed body and whose message is
    (the string form of) what error-message extraction gives for that
    body with fallback [Operation failed]; any other parsed value is
    returned as it is.  The body is read once, after the one call to
    the transport. *)
Theorem json_failure_marker_rejects fetch_result (args : ApiTemplateArguments)
    (p : gmap string string * CrossBody) (response : Response)
    (body : JsValue) (tr : Trace) :
  baseUrl args ≠ EmptyString →
  prepared args = Return p →
  fetch_result (full_url args) (request_init args p) = Return response →
  response_ok response = true →
  (responseType args = Some (NotNull Json) ∨
   ((responseType args = None ∨ responseType args = Some Null ∨
     responseType args = Some (NotNull Auto)) ∧
    detectResponseType response = Json)) →
  response_json response = Return body →
  let outcome :=
    if has_failure_marker body
    then Throw (api_error
                  (js_String (getErrorMessage body "Operation failed")) 400 body)
    else Return body in
  parseResponse response Json tr = (outcome, tr ++ [ReadJson]) ∧
  apiTemplate fetch_result args tr
  = (outcome, tr ++ [Fetch (full_url args) (request_init args p); ReadJson]).
Proof.
  intros Hb Hp Hf Hok Hty Hj outcome. split.
  - by apply parseResponse_json.
  - rewrite (apiTemplate_success _ _ p response) by done.
    assert (finalType_of (default (NotNull Auto) (responseType args)) response
            = Json) as ->.
    { destruct Hty as [-> | [[-> | [-> | ->]] Hd]]; simpl; by rewrite ?Hd. }
    rewrite (parseResponse_json _ body) by done.
    by rewrite <- app_assoc.
Qed.

Lemma json_failure_marker_rejects_witness :
  apiTemplate
    (fun _ _ => Return marked_response) sample_args []
  = (Throw (api_error "bad input" 400 marked_body), [sample_fetch; ReadJson]).
Proof.
  refine (proj2 (json_failure_marker_rejects
                   (fun _ _ => Return marked_response)
                   sample_args sample_prepared marked_response marked_body []
                   _ _ _ _ _ _)).
  - discriminate.
  - vm_compute. reflexivity.
  - reflexivity.
  - reflexivity.
  - right. split; [by left | vm_compute; reflexivity].
  - reflexivity.
Defined.

(** * Failure reported by the transport status *)

Lemma toLowerCase_app (a b : string) :
  Str.toLowerCase (a +:+ b) = Str.toLowerCase a +:+ Str.toLowerCase b.
Proof. induction a as [|c a IH]; simpl; [done | by rewrite IH]. Qed.

Lemma is_substring_of_lower (p s : string) :
  is_substring_of p s →
  is_substring_of (Str.toLowerCase p) (Str.toLowerCase s).
Proof.
  intros [before [rest ->]].
  exists (Str.toLowerCase before), (Str.toLowerCase rest).
  by rewrite !toLowerCase_app.
Qed.

Lemma declares_json_test (contentType : string) :
  Str.includes (Str.toLowerCase contentType) "application/json"
  || Str.includes (Str.toLowerCase contentType) "+json" = true
  ↔ declares_json contentType.
Proof.
  unfold declares_json. by rewrite orb_true_iff, !includes_spec.
Qed.

(** C2.  For a response with a non-success status [apiTemplate] rejects
    with an error that carries the actual status code.  Its data is
    the JSON-parsed body when the content-type header (read without
    regard to case, a missing header being empty) contains
    [application/json] or [+json], in particular when the header
    contains one of them as it stands; the text body otherwise; and
    [null] when the read throws.  Its message is (the string form of)
    what error-message extraction gives for that data with fallback
    [API error (<status>)].  The trace shows that after the call to
    the transport only this one read of the body takes place, so no
    success-path parsing precedes the rejection. *)
Theorem http_failure_rejects fetch_result (args : ApiTemplateArguments)
    (p : gmap string string * CrossBody) (response : Response) (tr : Trace) :
  baseUrl args ≠ EmptyString →
  prepared args = Return p →
  fetch_result (full_url args) (request_init args p) = Return response →
  response_ok response = false →
  let contentType :=
    default EmptyString (response_headers_get response "content-type") in
  let fallback :=
    "API error (" +:+ Str.of_Z (response_status response) +:+ ")" in
  let rejection (errorData : JsValue) : Completion JsValue :=
    Throw (api_error (js_String (getErrorMessage errorData fallback))
             (response_status response) errorData) in
  (declares_json contentType →
     apiTemplate fetch_result args tr
     = (rejection (or_null (response_json response)),
        tr ++ [Fetch (full_url args) (request_init args p); ReadJson])) ∧
  (¬ declares_json contentType →
     apiTemplate fetch_result args tr
     = (rejection (or_null (JsString <$> response_text response)),
        tr ++ [Fetch (full_url args) (request_init args p); ReadText])) ∧
  (is_substring_of "application/json" contentType ∨
   is_substring_of "+json" contentType →
     declares_json contentType).
Proof.
  intros Hb Hp Hf Hok contentType fallback rejection.
  pose proof (apiTemplate_http_failure fetch_result args p response tr
                Hb Hp Hf Hok) as Hrun.
  cbv zeta in Hrun. unfold header_or_empty in Hrun. fold contentType in Hrun.
  pose proof (declares_json_test contentType) as Htest.
  destruct (Str.includes (Str.toLowerCase contentType) "application/json"
            || Str.includes (Str.toLowerCase contentType) "+json").
  - split; [intros _; exact Hrun |]. split.
    + intros Hn. exfalso. by apply Hn, Htest.
    + intros _. by apply Htest.
  - split; [| split].
    + intros Hd. apply Htest in Hd. discriminate Hd.
    + intros _. exact Hrun.
    + intros [H | H]; apply is_substring_of_lower in H; [by left | by right].
Qed.

Lemma http_failure_rejects_witness :
  apiTemplate
    (fun _ _ => Return not_found_response) sample_args []
  = (Throw (api_error "not found" 404 not_found_body), [sample_fetch; ReadJson]).
Proof.
  refine (proj1 (http_failure_rejects
                   (fun _ _ => Return not_found_response)
                   sample_args sample_prepared not_found_response []
                   _ _ _ _) _).
  - discriminate.
  - vm_compute. reflexivity.
  - reflexivity.
  - reflexivity.
  - left. by exists EmptyString, EmptyString.
Defined.

(** HTTP 500 with a body that does not parse. *)
Example http_500_unparseable :
  apiTemplate
    (fun _ _ => Return (sample_response false 500 (Some "Application/JSON")
                          (Throw syntax_error) (Return "<html>")))
    sample_args []
  = (Throw (api_error "API error (500)" 500 JsNull), [sample_fetch; ReadJson]).
Proof. vm_compute. reflexivity. Qed.

(** A text body is itself the message. *)
Example http_503_text :
  apiTemplate
    (fun _ _ => Return (sample_response false 503 (Some "text/plain")
                          (Throw syntax_error) (Return "Service Unavailable")))
    sample_args []
  = (Throw (api_error "Service Unavailable" 503 (JsString "Service Unavailable")),
     [sample_fetch; ReadText]).
Proof. vm_compute. reflexivity. Qed.

(** * Request preparation: validation and headers *)

Lemma truthy_token_none (t : option (Nullable string)) :
  truthy_token t = None ↔ token_missing_or_empty t.
Proof.
  unfold token_missing_or_empty. destruct t as [[|s]|]; simpl.
  - split; [auto | done].
  - destruct (String.eqb_spec s EmptyString) as [->|Hne].
    + split; [auto | done].
    + split; [done |]. intros [H | [H | H]]; congruence.
  - split; [auto | done].
Qed.

Lemma truthy_token_normalized (t : option (Nullable string)) :
  truthy_token (Some (default Null t)) = truthy_token t.
Proof. by destruct t as [[|s]|]. Qed.

Lemma prepareRequest_without_token (args : ApiTemplateArguments) :
  default false (isAuthenticationRequired args) = true →
  truthy_token (token args) = None →
  prepareRequest args
  = Throw (new_Error (JsString "Token is required but not available")).
Proof. intros Ha Ht. unfold prepareRequest. by rewrite Ha, Ht. Qed.

Lemma prepared_without_token (args : ApiTemplateArguments) :
  isAuthenticationRequired args = Some true →
  token_missing_or_empty (token args) →
  prepared args
  = Throw (new_Error (JsString "Token is required but not available")).
Proof.
  intros Ha Ht. unfold prepared.
  apply prepareRequest_without_token;
    cbn [normalizedArgs token isAuthenticationRequired].
  - by rewrite Ha.
  - rewrite truthy_token_normalized. by apply truthy_token_none.
Qed.

(** C5.  When [isAuthenticationRequired] is true and the token is
    missing or empty, request preparation fails with the validation
    error of the token, and [apiTemplate] surfaces that failure with
    the trace unchanged: no call to the transport is made.  (With an
    empty base URL the validation error of the base URL comes first,
    also with the trace unchanged.) *)
Theorem auth_without_token_fails_before_fetch fetch_result
    (args : ApiTemplateArguments) (tr : Trace) :
  isAuthenticationRequired args = Some true →
  token_missing_or_empty (token args) →
  let failure := new_Error (JsString "Token is required but not available") in
  prepareRequest args = Throw failure ∧
  prepared args = Throw failure ∧
  (baseUrl args ≠ EmptyString →
     apiTemplate fetch_result args tr = (Throw failure, tr)) ∧
  (baseUrl args = EmptyString →
     apiTemplate fetch_result args tr
     = (Throw (new_Error (JsString "Base URL not found")), tr)).
Proof.
  intros Ha Ht failure. split; [| split; [| split]].
  - apply prepareRequest_without_token.
    + by rewrite Ha.
    + by apply truthy_token_none.
  - by apply prepared_without_token.
  - intros Hb. apply apiTemplate_prepare_throws; [done |].
    by apply prepared_without_token.
  - apply apiTemplate_base_url_missing.
Qed.

Lemma auth_without_token_fails_before_fetch_witness :
  apiTemplate (fun _ _ => Return marked_response) unauthenticated_args []
  = (Throw (new_Error (JsString "Token is required but not available")), []).
Proof.
  refine (proj1 (proj2 (proj2 (auth_without_token_fails_before_fetch
                                 (fun _ _ => Return marked_response)
                                 unauthenticated_args [] _ _))) _).
  - reflexivity.
  - right. left. reflexivity.
  - discriminate.
Defined.

Lemma prepareRequest_headers (args : ApiTemplateArguments)
    (headers : gmap string string) (body : CrossBody) :
  prepareRequest args = Return (headers, body) →
  headers
  = (if default false (isAuthenticationRequired args)
     then <["Authorization" := "Bearer " +:+ default EmptyString (truthy_token (token args))]>
     else id)
      (if default false (isFormData args)
       then ∅
       else <["Content-Type" := "application/json"]> ∅) ∧
  (default false (isAuthenticationRequired args) = true →
   is_Some (truthy_token (token args))).
Proof.
  unfold prepareRequest.
  destruct (default false (isAuthenticationRequired args)).
  - destruct (truthy_token (token args)) as [tok|]; simpl; [| done].
    intros [= <- _]. split; [| by eexists].
    by destruct (default false (isFormData args)).
  - simpl. intros [= <- _]. split; [| done].
    by destruct (default false (isFormData args)).
Qed.

(** C10.  When request preparation accepts the arguments, the prepared
    headers hold no key other than [Content-Type] and [Authorization];
    [Content-Type] is present, with value [application/json], exactly
    when [isFormData] is not set; [Authorization] is present, with
    value [Bearer <token>] for the given non-empty token, exactly when
    [isAuthenticationRequired] is set. *)
Theorem prepared_headers_frame (args : ApiTemplateArguments)
    (headers : gmap string string) (body : CrossBody) :
  prepareRequest args = Return (headers, body) →
  (∀ k, is_Some (headers !! k) → k = "Content-Type" ∨ k = "Authorization") ∧
  (headers !! "Content-Type"
   = if default false (isFormData args) then None else Some "application/json") ∧
  (default false (isAuthenticationRequired args) = true →
     ∃ tok, token args = Some (NotNull tok) ∧ tok ≠ EmptyString ∧
            headers !! "Authorization" = Some ("Bearer " +:+ tok)) ∧
  (default false (isAuthenticationRequired args) = false →
     headers !! "Authorization" = None).
Proof.
  intros Hp. apply prepareRequest_headers in Hp as [-> Htok].
  destruct (default false (isAuthenticationRequired args)) eqn:Ea;
    destruct (default false (isFormData args)) eqn:Ef;
    (split; [| split; [| split]]); simpl.
  all: try (intros k Hk;
            destruct (decide (k = "Authorization")) as [->|Hka]; [by right |];
            destruct (decide (k = "Content-Type")) as [->|Hkc]; [by left |];
            exfalso; rewrite ?lookup_insert_ne, ?lookup_empty in Hk by done;
            by destruct Hk).
  all: try (by rewrite ?lookup_insert_ne, ?lookup_empty, ?lookup_insert_eq by done).
  all: try (intros _; by rewrite ?lookup_insert_ne, ?lookup_empty by done).
  all: try (intros ?; done).
  all: intros _; destruct (Htok eq_refl) as [tok Ht]; exists tok; rewrite Ht;
    simpl; (split; [| split; [| by rewrite lookup_insert_eq]]).
  all: destruct (token args) as [[|s]|]; try discriminate Ht; simpl in Ht.
  all: destruct (String.eqb_spec s EmptyString) as [->|Hne]; try discriminate Ht.
  all: by injection Ht as ->.
Qed.

Lemma prepared_headers_frame_witness :
  prepareRequest upload_args = Return upload_prepared ∧
  upload_prepared.1 !! "Content-Type" = None ∧
  (∀ k, is_Some (upload_prepared.1 !! k) →
        k = "Content-Type" ∨ k = "Authorization").
Proof.
  assert (prepareRequest upload_args
          = Return (upload_prepared.1, upload_prepared.2)) as Hp
    by (vm_compute; reflexivity).
  split; [exact Hp |].
  pose proof (prepared_headers_frame upload_args _ _ Hp) as (Hk & Hc & _).
  split; [exact Hc | exact Hk].
Defined.

(** * Request preparation: the body *)

Lemma stringify_object (ps : Props) : is_Some (JSON.stringify (JsObject ps)).
Proof. by eexists. Qed.

Lemma prepared_json_body (args : ApiTemplateArguments)
    (p : gmap string string * CrossBody) :
  default false (isFormData args) = false →
  prepared args = Return p →
  p.2 = if bool_decide (effective_method args = GET) then BodyUndefined
        else match JSON.stringify (JsObject (default [] (payload args))) with
             | Some s => BodyString s
             | None => BodyUndefined
             end.
Proof.
  intros Hf. unfold prepared, prepareRequest.
  cbn [normalizedArgs isFormData isAuthenticationRequired token method payload].
  cbn [default from_option]. rewrite Hf. cbn [negb].
  destruct (if default false (isAuthenticationRequired args) then _ else _)
    as [headers|e]; [| done].
  cbn [mbind completion_bind]. intros [= <-]. cbn [snd].
  destruct (decide (effective_method args = GET)) as [Hm|Hm].
  - by rewrite !bool_decide_eq_true_2 by congruence.
  - by rewrite !bool_decide_eq_false_2 by congruence.
Qed.

Lemma parseResponse_reads_once (response : Response) (finalType : ResponseType)
    (tr : Trace) :
  ∃ c ev, parseResponse response finalType tr = (c, tr ++ [ev]).
Proof.
  unfold parseResponse, json, text, blob, arrayBuffer, perform, mbind, async_bind.
  destruct finalType.
  - by eexists _, _.
  - destruct (response_json response) as [data|e]; [| by eexists _, _].
    unfold throwIfOperationFailed, throw, mret, async_ret.
    destruct (strict_eq_string _ _); by eexists _, _.
  - destruct (response_blob response) as [reader|].
    + destruct reader; by eexists _, _.
    + destruct (response_arrayBuffer response); by eexists _, _.
  - by eexists _, _.
  - destruct (response_arrayBuffer response); by eexists _, _.
Qed.

Lemma apiTemplate_calls_fetch fetch_result (args : ApiTemplateArguments)
    (p : gmap string string * CrossBody) (tr : Trace) :
  baseUrl args ≠ EmptyString →
  prepared args = Return p →
  ∃ c rest,
    apiTemplate fetch_result args tr
    = (c, tr ++ Fetch (full_url args) (request_init args p) :: rest).
Proof.
  intros Hb Hp.
  destruct (fetch_result (full_url args) (request_init args p))
    as [response|e] eqn:Hf.
  - destruct (response_ok response) eqn:Hok.
    + rewrite (apiTemplate_success _ _ p response) by done.
      destruct (parseResponse_reads_once response
                  (finalType_of (default (NotNull Auto) (responseType args)) response)
                  (tr ++ [Fetch (full_url args) (request_init args p)]))
        as (c & ev & ->).
      exists c, [ev]. by rewrite <- app_assoc.
    + rewrite (apiTemplate_http_failure _ _ p response) by done. cbv zeta.
      destruct (_ || _); by eexists _, [_].
  - rewrite (apiTemplate_fetch_throws _ _ p e) by done. by eexists _, [].
Qed.

(** C7.  With [isFormData] false (or absent): a GET request (the
    default method) is prepared with no body, whatever the payload;
    for any other method the prepared body is the JSON serialisation
    of the payload, an absent payload counting as the empty mapping,
    whose serialisation is the two braces.  Past the validation of the
    base URL, that prepared request is what the transport is called
    with. *)
Theorem json_body_rule fetch_result (args : ApiTemplateArguments)
    (p : gmap string string * CrossBody) (tr : Trace) :
  default false (isFormData args) = false →
  prepared args = Return p →
  (effective_method args = GET → p.2 = BodyUndefined) ∧
  (effective_method args ≠ GET →
     ∃ s, JSON.stringify (JsObject (default [] (payload args))) = Some s ∧
          p.2 = BodyString s) ∧
  (effective_method args ≠ GET → payload args = None →
     p.2 = BodyString "{}") ∧
  (baseUrl args ≠ EmptyString →
     ∃ c rest,
       apiTemplate fetch_result args tr
       = (c, tr ++ Fetch (full_url args) (request_init args p) :: rest)).
Proof.
  intros Hf Hp. pose proof (prepared_json_body args p Hf Hp) as Hbody.
  split; [| split; [| split]].
  - intros Hm. by rewrite Hbody, bool_decide_eq_true_2.
  - intros Hm. rewrite bool_decide_eq_false_2 in Hbody by done.
    destruct (stringify_object (default [] (payload args))) as [s Hs].
    exists s. split; [done |]. by rewrite Hbody, Hs.
  - intros Hm Hnone. rewrite bool_decide_eq_false_2 in Hbody by done.
    by rewrite Hbody, Hnone.
  - intros Hb. by apply apiTemplate_calls_fetch.
Qed.

Lemma json_body_rule_witness :
  prepared sample_args = Return sample_prepared ∧
  sample_prepared.2 = BodyString "{}".
Proof.
  assert (prepared sample_args = Return sample_prepared) as Hp
    by (vm_compute; reflexivity).
  split; [exact Hp |].
  refine (proj1 (proj2 (proj2 (json_body_rule (fun _ _ => Return marked_response)
                                 sample_args sample_prepared [] _ Hp))) _ _).
  - reflexivity.
  - discriminate.
  - reflexivity.
Defined.

(** A payload is serialised field by field. *)
Example json_body_example :
  prepared
    {| baseUrl := "https://api.example.com"; endpoint := "/items";
       method := Some PUT;
       payload := Some [("name", JsString "pen"); ("qty", JsNum (NumInt 2));
                        ("tags", JsArray [JsString "a"; JsNull]);
                        ("skip", JsUndefined)];
       isAuthenticationRequired := None; token := None;
       isFormData := Some false; responseType := None |}
  = Return
      (<["Content-Type" := "application/json"]> ∅,
       BodyString
         ("{" +:+ Str.quoted "name" +:+ ":" +:+ Str.quoted "pen" +:+ "," +:+
          Str.quoted "qty" +:+ ":2," +:+
          Str.quoted "tags" +:+ ":[" +:+ Str.quoted "a" +:+ ",null]}")).
Proof. vm_compute. reflexivity. Qed.

(** A GET request has no body even with a payload. *)
Example get_has_no_body :
  prepared
    {| baseUrl := "https://api.example.com"; endpoint := "/items";
       method := None;
       payload := Some [("q", JsString "pen")];
       isAuthenticationRequired := None; token := None;
       isFormData := Some true; responseType := None |}
  = Return (∅, BodyUndefined).
Proof. vm_compute. reflexivity. Qed.

(** * Request preparation: multipart *)

Lemma file_like_test (v : JsValue) :
  isBrowserFile v || isBrowserBlob v || isReactNativeFile v = file_like v.
Proof.
  destruct v as [| |b|n|s|elems|ps|k h ps];
    unfold isReactNativeFile, file_like, get; simpl;
    rewrite ?andb_false_r; try reflexivity.
  - by destruct (lookup_prop "uri" ps) as [[]|].
  - destruct k; simpl; try reflexivity.
    by destruct (lookup_prop "uri" ps) as [[]|].
Qed.

Lemma appendValue_spec (key : string) (formData : FormData) (v : JsValue) :
  appendValue key formData v = formData ++ (pair key <$> form_values v).
Proof.
  unfold appendValue, append. rewrite file_like_test.
  destruct v as [| |b|n|s|elems|ps|k h ps];
    cbn -[JSON.stringify js_String file_like];
    rewrite ?app_nil_r; try reflexivity.
  - by destruct (file_like (JsObject ps)).
  - by destruct (file_like (JsHost k h ps)).
Qed.

Lemma appendValue_fold (key : string) (elems : list JsValue) (formData : FormData) :
  fold_left (appendValue key) elems formData
  = formData ++ (pair key <$> (elems ≫= form_values)).
Proof.
  revert formData. induction elems as [|v elems IH]; intros formData; simpl.
  - by rewrite app_nil_r.
  - rewrite IH, appendValue_spec, fmap_app. by rewrite <- app_assoc.
Qed.

Lemma appendEntry_spec (formData : FormData) (entry : string * JsValue) :
  appendEntry formData entry = formData ++ form_entries entry.
Proof.
  destruct entry as [key value]. unfold appendEntry, form_entries. simpl.
  destruct value; simpl; rewrite ?app_nil_r; try reflexivity;
    try apply appendValue_spec.
  apply appendValue_fold.
Qed.

Lemma appendEntry_fold (payload : Props) (formData : FormData) :
  fold_left appendEntry payload formData = formData ++ multipart payload.
Proof.
  unfold multipart. revert formData.
  induction payload as [|entry payload IH]; intros formData; simpl.
  - by rewrite app_nil_r.
  - by rewrite IH, appendEntry_spec, <- app_assoc.
Qed.

Lemma prepareRequest_multipart_body (args : ApiTemplateArguments)
    (headers : gmap string string) (body : CrossBody) :
  default false (isFormData args) = true →
  method args ≠ Some GET →
  prepareRequest args = Return (headers, body) →
  body = BodyFormData (multipart (default [] (payload args))).
Proof.
  intros Hf Hm. unfold prepareRequest. rewrite Hf.
  rewrite bool_decide_eq_false_2 by done. cbn [negb].
  destruct (if default false (isAuthenticationRequired args) then _ else _)
    as [h|e]; [| done].
  cbn [mbind completion_bind]. intros [= _ <-].
  by rewrite appendEntry_fold.
Qed.

Lemma multipart_app (before rest : Props) :
  multipart (before ++ rest) = multipart before ++ multipart rest.
Proof. unfold multipart. apply bind_app. Qed.

Lemma multipart_singleton (entry : string * JsValue) :
  multipart [entry] = form_entries entry.
Proof. unfold multipart. simpl. apply app_nil_r. Qed.

(** C6.  For a multipart request ([isFormData] true, method other than
    GET) the prepared body is the form whose entries are, field by
    field in the iteration order of the payload: nothing for a field
    whose value is [null] or [undefined]; for a sequence, the entries
    of its elements one after the other under the same key; for any
    other value, its own entry.  The entry of a value follows the
    per-value rule [form_values]: a file-like value (a platform File
    or Blob, or an object with a string [uri]) as it is, any other
    object as its JSON text, a scalar as its string form, and nothing
    for [null] and [undefined].  The payload with tags a and b, a
    null note and the object meta gives exactly three entries: the two
    tags and the JSON text of meta. *)
Theorem multipart_encoding (args : ApiTemplateArguments)
    (headers : gmap string string) (body : CrossBody) :
  default false (isFormData args) = true →
  method args ≠ Some GET →
  prepareRequest args = Return (headers, body) →
  body = BodyFormData (multipart (default [] (payload args))) ∧
  (∀ key, multipart [(key, JsNull)] = [] ∧ multipart [(key, JsUndefined)] = []) ∧
  (∀ key elems,
     multipart [(key, JsArray elems)] = pair key <$> (elems ≫= form_values)) ∧
  (∀ key value, (∀ elems, value ≠ JsArray elems) →
     multipart [(key, value)] = pair key <$> form_values value) ∧
  (∀ before rest,
     multipart (before ++ rest) = multipart before ++ multipart rest) ∧
  multipart [("tags", JsArray [JsString "a"; JsString "b"]);
             ("note", JsNull);
             ("meta", JsObject [("x", JsNum (NumInt 1))])]
  = [("tags", JsString "a"); ("tags", JsString "b");
     ("meta", JsString ("{" +:+ Str.quoted "x" +:+ ":1}"))].
Proof.
  intros Hf Hm Hp.
  split; [by apply (prepareRequest_multipart_body args headers) |].
  split; [done |].
  split; [intros key elems; by rewrite multipart_singleton |].
  split; [| split; [apply multipart_app | reflexivity]].
  intros key value Hv. rewrite multipart_singleton. unfold form_entries. simpl.
  destruct value; try reflexivity. by destruct (Hv elems).
Qed.

Lemma multipart_encoding_witness :
  prepareRequest upload_args = Return upload_prepared ∧
  upload_prepared.2
  = BodyFormData
      [("tags", JsString "a"); ("tags", JsString "b");
       ("meta", JsString ("{" +:+ Str.quoted "x" +:+ ":1}"))].
Proof.
  assert (prepareRequest upload_args
          = Return (upload_prepared.1, upload_prepared.2)) as Hp
    by (vm_compute; reflexivity).
  split; [exact Hp |].
  refine (proj1 (multipart_encoding upload_args _ _ _ _ Hp)).
  - reflexivity.
  - discriminate.
Defined.

(** File-like values are appended as they are; an array inside a
    sequence and a plain object are appended as JSON text. *)
Example multipart_files :
  multipart
    [("photo", JsObject [("uri", JsString "file:///a.jpg");
                         ("name", JsString "a.jpg")]);
     ("docs", JsArray [JsHost HostFile 1 []; JsUndefined; JsHost HostBlob 2 []]);
     ("grid", JsArray [JsArray [JsNum (NumInt 1); JsNum (NumInt 2)]]);
     ("flag", JsBoolean false);
     ("count", JsNum (NumInt 0))]
  = [("photo", JsObject [("uri", JsString "file:///a.jpg");
                         ("name", JsString "a.jpg")]);
     ("docs", JsHost HostFile 1 []);
     ("docs", JsHost HostBlob 2 []);
     ("grid", JsString "[1,2]");
     ("flag", JsString "false");
     ("count", JsString "0")].
Proof. vm_compute. reflexivity. Qed.

(** * The shape of the error, by kind of failure *)

(** C4 does not hold as stated: the two validation failures reach the
    caller as an error object that has neither [status] nor [data]. *)
Lemma validation_failure_lacks_status_and_data :
  (∃ e, apiTemplate (fun _ _ => Return marked_response) args_without_base_url []
        = (Throw e, []) ∧
        message e = "Base URL not found" ∧
        ¬ exposes_status_and_data e) ∧
  (∃ e, apiTemplate (fun _ _ => Return marked_response) unauthenticated_args []
        = (Throw e, []) ∧
        message e = "Token is required but not available" ∧
        ¬ exposes_status_and_data e).
Proof.
  split; eexists; (split; [vm_compute; reflexivity |]);
    (split; [reflexivity |]); intros [[st Hst] _]; discriminate Hst.
Qed.

(** C4, amended.  A failure by the transport status and a logical
    failure marked in a JSON body are surfaced as an error object that
    exposes message, status and data: the actual status and the error
    payload in the first case, 400 and the parsed body in the second.
    The two validation failures (empty base URL; authentication
    required without a token) are surfaced, with no call to the
    transport, as an error object that carries its message only. *)
Theorem failures_by_kind fetch_result (args : ApiTemplateArguments) (tr : Trace) :
  (baseUrl args = EmptyString →
     ∃ e, apiTemplate fetch_result args tr = (Throw e, tr) ∧
          message e = "Base URL not found" ∧ message_only e) ∧
  (baseUrl args ≠ EmptyString →
   isAuthenticationRequired args = Some true →
   token_missing_or_empty (token args) →
     ∃ e, apiTemplate fetch_result args tr = (Throw e, tr) ∧
          message e = "Token is required but not available" ∧ message_only e) ∧
  (∀ p response,
     baseUrl args ≠ EmptyString →
     prepared args = Return p →
     fetch_result (full_url args) (request_init args p) = Return response →
     response_ok response = false →
     ∃ e tr', apiTemplate fetch_result args tr = (Throw e, tr') ∧
              exposes_status_and_data e ∧
              status e = Some (response_status response)) ∧
  (∀ p response body,
     baseUrl args ≠ EmptyString →
     prepared args = Return p →
     fetch_result (full_url args) (request_init args p) = Return response →
     response_ok response = true →
     finalType_of (default (NotNull Auto) (responseType args)) response = Json →
     response_json response = Return body →
     has_failure_marker body = true →
     ∃ e tr', apiTemplate fetch_result args tr = (Throw e, tr') ∧
              exposes_status_and_data e ∧
              status e = Some 400 ∧ data e = Some body).
Proof.
  split; [| split; [| split]].
  - intros Hb. eexists. split; [by apply apiTemplate_base_url_missing |]. done.
  - intros Hb Ha Ht. eexists. split.
    + apply apiTemplate_prepare_throws; [done |]. by apply prepared_without_token.
    + done.
  - intros p response Hb Hp Hf Hok.
    rewrite (apiTemplate_http_failure _ _ p response) by done. cbv zeta.
    destruct (_ || _); eexists _, _; (split; [reflexivity |]);
      (split; [split; by eexists | reflexivity]).
  - intros p response body Hb Hp Hf Hok Hty Hj Hm.
    rewrite (apiTemplate_success _ _ p response), Hty by done.
    rewrite (parseResponse_json _ body), Hm by done.
    eexists _, _. split; [reflexivity |].
    split; [split; by eexists | done].
Qed.

(** * The other parse strategies, on a sample download *)

Example download_as_blob :
  apiTemplate (fun _ _ => Return download_response) sample_args []
  = (Return (JsHost HostBlob 7 [("filename", JsString "report.pdf")]),
     [sample_fetch; ReadBlob]).
Proof. vm_compute. reflexivity. Qed.

Example download_as_arrayBuffer :
  parseResponse download_response ArrayBuffer []
  = (Return (JsHost HostArrayBuffer 8 []), [ReadArrayBuffer]).
Proof. vm_compute. reflexivity. Qed.

Example filename_needs_a_closing_quote :
  FilenameRegex.exec ("filename=" +:+ String Str.dquote "open") = None ∧
  FilenameRegex.exec ("filename=" +:+ Str.quoted EmptyString +:+
                      "; filename=" +:+ Str.quoted "b.txt")
  = Some "b.txt".
Proof. split; vm_compute; reflexivity. Qed.

(** * Further properties of request preparation *)


Lemma prepared_get_body (args : ApiTemplateArguments)
    (p : gmap string string * CrossBody) :
  effective_method args = GET →
  prepared args = Return p →
  p.2 = BodyUndefined.
Proof.
  intros Hm. unfold prepared, prepareRequest.
  cbn [normalizedArgs isFormData isAuthenticationRequired token method payload].
  rewrite Hm. rewrite bool_decide_eq_true_2 by done.
  destruct (if default false (Some (default false (isAuthenticationRequired args)))
            then _ else _) as [headers|e]; [| done].
  cbn [mbind completion_bind]. by intros [= <-].
Qed.

(** X2.  A GET request, which is also what an absent method means, is
    prepared without a body whatever the payload and whether or not
    [isFormData] is set: no form is built for it. *)
Theorem get_request_never_has_body (args : ApiTemplateArguments)
    (p : gmap string string * CrossBody) :
  method args = None ∨ method args = Some GET →
  prepared args = Return p →
  p.2 = BodyUndefined.
Proof.
  intros Hm. apply prepared_get_body. unfold effective_method.
  by destruct Hm as [-> | ->].
Qed.

Lemma get_request_never_has_body_witness :
  prepared search_args = Return (∅, BodyUndefined) ∧
  (∅ : gmap string string, BodyUndefined).2 = BodyUndefined.
Proof.
  assert (prepared search_args = Return (∅, BodyUndefined)) as Hp
    by (vm_compute; reflexivity).
  split; [exact Hp |].
  exact (get_request_never_has_body search_args _ (or_introl eq_refl) Hp).
Defined.

Lemma prepareRequest_parts (args : ApiTemplateArguments)
    (headers : gmap string string) (body : CrossBody) :
  prepareRequest args = Return (headers, body) →
  body
  = (if negb (bool_decide (method args = Some GET)) then
       if default false (isFormData args) then
         BodyFormData (fold_left appendEntry (default [] (payload args)) [])
       else
         match JSON.stringify (payload_value (payload args)) with
         | Some s => BodyString s
         | None => BodyUndefined
         end
     else BodyUndefined).
Proof.
  unfold prepareRequest.
  destruct (if default false (isAuthenticationRequired args) then _ else _)
    as [h|e]; [| done].
  cbn [mbind completion_bind]. by intros [= _ <-].
Qed.

(** X3.  What request preparation builds is divided between its
    inputs: the headers are determined by [isFormData],
    [isAuthenticationRequired] and the token, the body by the method,
    the payload and [isFormData].  In particular the token never
    reaches the body, and the payload never reaches the headers. *)
Theorem prepareRequest_separation (a1 a2 : ApiTemplateArguments)
    (h1 h2 : gmap string string) (b1 b2 : CrossBody) :
  prepareRequest a1 = Return (h1, b1) →
  prepareRequest a2 = Return (h2, b2) →
  (isFormData a1 = isFormData a2 →
   isAuthenticationRequired a1 = isAuthenticationRequired a2 →
   token a1 = token a2 →
   h1 = h2) ∧
  (method a1 = method a2 →
   payload a1 = payload a2 →
   isFormData a1 = isFormData a2 →
   b1 = b2).
Proof.
  intros H1 H2. split.
  - intros Hf Ha Ht.
    apply prepareRequest_headers in H1 as [-> _].
    apply prepareRequest_headers in H2 as [-> _].
    by rewrite Hf, Ha, Ht.
  - intros Hm Hp Hf.
    rewrite (prepareRequest_parts _ _ _ H1), (prepareRequest_parts _ _ _ H2).
    by rewrite Hm, Hp, Hf.
Qed.

Lemma prepareRequest_separation_witness :
  prepareRequest upload_args = Return upload_prepared ∧
  prepareRequest upload_args_other_token = Return upload_prepared_other_token ∧
  upload_prepared.2 = upload_prepared_other_token.2.
Proof.
  assert (prepareRequest upload_args
          = Return (upload_prepared.1, upload_prepared.2)) as H1
    by (vm_compute; reflexivity).
  assert (prepareRequest upload_args_other_token
          = Return (upload_prepared_other_token.1, upload_prepared_other_token.2))
    as H2 by (vm_compute; reflexivity).
  split; [exact H1 |]. split; [exact H2 |].
  exact (proj2 (prepareRequest_separation _ _ _ _ _ _ H1 H2)
           eq_refl eq_refl eq_refl).
Defined.

(** * Further properties of the multipart form *)

Lemma form_values_nullish (v : JsValue) :
  nullish v = true → form_values v = [].
Proof. by destruct v. Qed.

Lemma form_values_single (v : JsValue) :
  nullish v = false →
  ∃ y, form_values v = [y] ∧ nullish y = false ∧
       (file_like y = true ∨ ∃ s, y = JsString s).
Proof.
  intros Hn. destruct v as [| |b|n|s|elems|ps|k h ps]; try discriminate Hn.
  - eexists. split; [reflexivity |]. split; [done |]. right. by eexists.
  - eexists. split; [reflexivity |]. split; [done |]. right. by eexists.
  - eexists. split; [reflexivity |]. split; [done |]. right. by eexists.
  - eexists. split; [reflexivity |]. split; [done |]. right. by eexists.
  - unfold form_values. destruct (file_like (JsObject ps)) eqn:Ef.
    + eexists. split; [reflexivity |]. split; [done |]. by left.
    + eexists. split; [reflexivity |]. split; [done |]. right. by eexists.
  - unfold form_values. destruct (file_like (JsHost k h ps)) eqn:Ef.
    + eexists. split; [reflexivity |]. split; [done |]. by left.
    + eexists. split; [reflexivity |]. split; [done |]. right. by eexists.
Qed.

Lemma form_values_elem (v y : JsValue) :
  y ∈ form_values v →
  nullish y = false ∧ (file_like y = true ∨ ∃ s, y = JsString s).
Proof.
  destruct (nullish v) eqn:Hn.
  - rewrite form_values_nullish by done. by intros ?%not_elem_of_nil.
  - destruct (form_values_single v Hn) as (y' & -> & Hy).
    by intros ->%list_elem_of_singleton.
Qed.

Lemma form_entries_elem (entry : string * JsValue) (key : string) (value : JsValue) :
  (key, value) ∈ form_entries entry →
  key = entry.1 ∧ nullish value = false ∧
  (file_like value = true ∨ ∃ s, value = JsString s).
Proof.
  unfold form_entries. intros H.
  assert (∃ vs : list JsValue,
            (key, value) ∈ pair entry.1 <$> vs ∧
            ∀ y, y ∈ vs → ∃ x, y ∈ form_values x) as (vs & Hin & Hvs).
  { destruct entry.2 as [| |b|n|s|elems|ps|k h ps] eqn:E;
      try (eexists; split; [exact H | intros y Hy; by eexists]).
    exists (elems ≫= form_values). split; [exact H |].
    intros y Hy. apply list_elem_of_bind in Hy as (x & Hy & _). by exists x. }
  apply list_elem_of_fmap in Hin as (y & [= -> ->] & Hy).
  split; [done |]. destruct (Hvs y Hy) as [x Hx]. by apply (form_values_elem x).
Qed.

(** X4.  Whenever request preparation builds a form, every entry of it
    stands under a key of the payload, and its value is either a
    file-like value handed over as it is or a string: [null],
    [undefined] and objects that are not file-like are never
    appended. *)
Theorem form_entries_wellformed (args : ApiTemplateArguments)
    (headers : gmap string string) (formData : FormData)
    (key : string) (value : JsValue) :
  prepareRequest args = Return (headers, BodyFormData formData) →
  (key, value) ∈ formData →
  (∃ v, (key, v) ∈ default [] (payload args)) ∧
  nullish value = false ∧
  (file_like value = true ∨ ∃ s, value = JsString s).
Proof.
  intros Hp Hin. apply prepareRequest_parts in Hp.
  destruct (negb (bool_decide (method args = Some GET))); [| discriminate Hp].
  destruct (default false (isFormData args)).
  - injection Hp as ->. rewrite appendEntry_fold in Hin. simpl in Hin.
    unfold multipart in Hin.
    apply list_elem_of_bind in Hin as ([k v] & Hin & Hentry).
    apply form_entries_elem in Hin as (-> & Hn & Hv).
    split; [by exists v | done].
  - by destruct (JSON.stringify (payload_value (payload args))).
Qed.

Lemma form_entries_wellformed_witness :
  prepareRequest upload_args = Return upload_prepared ∧
  nullish (JsString "a") = false ∧
  (file_like (JsString "a") = true ∨ ∃ s, JsString "a" = JsString s).
Proof.
  assert (prepareRequest upload_args
          = Return (upload_prepared.1,
                    BodyFormData
                      [("tags", JsString "a"); ("tags", JsString "b");
                       ("meta", JsString ("{" +:+ Str.quoted "x" +:+ ":1}"))]))
    as Hp by (vm_compute; reflexivity).
  split; [exact Hp |].
  refine (proj2 (form_entries_wellformed upload_args _ _ "tags" (JsString "a")
                   Hp _)).
  apply list_elem_of_here.
Defined.

(** X5.  Only [null] and [undefined] are dropped: a payload whose
    values are neither of them nor sequences gives exactly one entry
    per field, in the order of the fields; falsy scalars such as zero,
    [false] and the empty string are kept. *)
Theorem plain_fields_one_entry_each (payload : Props) :
  Forall (λ entry, plain_value entry.2) payload →
  fst <$> fold_left appendEntry payload [] = fst <$> payload.
Proof.
  intros Hall. rewrite appendEntry_fold. simpl. unfold multipart.
  induction Hall as [|[k v] payload [Hn Hseq] _ IH]; [done |].
  simpl in Hn, Hseq. rewrite bind_cons, fmap_app, IH, fmap_cons. simpl.
  destruct (form_values_single v Hn) as (y & Hy & _).
  unfold form_entries. cbn [fst snd].
  destruct v as [| |b|n|s|elems|ps|kd h ps]; cbv beta iota;
    try discriminate Hn; try (by destruct (Hseq elems));
    by rewrite Hy.
Qed.

Lemma plain_fields_one_entry_each_witness :
  fold_left appendEntry falsy_payload []
  = [("count", JsString "0"); ("flag", JsString "false");
     ("note", JsString EmptyString)] ∧
  fst <$> fold_left appendEntry falsy_payload [] = ["count"; "flag"; "note"].
Proof.
  split; [vm_compute; reflexivity |].
  refine (plain_fields_one_entry_each falsy_payload _).
  repeat constructor; discriminate.
Defined.

(** X6.  A sequence is expanded one level deep: a field whose value is
    a sequence gives one entry under its key for each element that is
    neither [null] nor [undefined], so none at all for an empty
    sequence; an element that is itself a sequence counts as one
    entry. *)
Theorem sequence_field_entries (key : string) (elems : list JsValue) :
  fst <$> fold_left appendEntry [(key, JsArray elems)] []
  = replicate (length (filter (λ v, nullish v = false) elems)) key.
Proof.
  rewrite appendEntry_fold, multipart_singleton.
  unfold form_entries. cbn [fst snd app].
  induction elems as [|v elems IH]; [done |].
  rewrite bind_cons, fmap_app, fmap_app, IH.
  destruct (nullish v) eqn:Hn.
  - rewrite form_values_nullish by done.
    by rewrite filter_cons_False by congruence.
  - destruct (form_values_single v Hn) as (y & -> & _).
    by rewrite filter_cons_True by done.
Qed.

(** * Further properties of the orchestrator *)

Lemma parseResponse_one_read (response : Response) (finalType : ResponseType)
    (tr : Trace) :
  ∃ c ev, parseResponse response finalType tr = (c, tr ++ [ev]) ∧
          is_read ev = true.
Proof.
  unfold parseResponse, json, text, blob, arrayBuffer, perform, mbind, async_bind.
  destruct finalType.
  - by eexists _, _.
  - destruct (response_json response) as [data|e]; [| by eexists _, _].
    unfold throwIfOperationFailed, throw, mret, async_ret.
    destruct (strict_eq_string _ _); by eexists _, _.
  - destruct (response_blob response) as [reader|].
    + destruct reader; by eexists _, _.
    + destruct (response_arrayBuffer response); by eexists _, _.
  - by eexists _, _.
  - destruct (response_arrayBuffer response); by eexists _, _.
Qed.

(** X7.  Every run of [apiTemplate] extends the trace in one of three
    ways: by nothing, when validation fails; by the one call to the
    transport, when that call is rejected; or by that call followed by
    exactly one read of the body.  So the transport is called at most
    once, with the concatenated URL and the prepared request, and the
    body is read at most once and never before the call. *)
Theorem apiTemplate_trace_shape fetch_result (args : ApiTemplateArguments)
    (tr : Trace) :
  ∃ c evs,
    apiTemplate fetch_result args tr = (c, tr ++ evs) ∧
    ((evs = [] ∧ ∃ e, c = Throw e) ∨
     (∃ p, prepared args = Return p ∧
           ((evs = [Fetch (baseUrl args +:+ endpoint args) (request_init args p)] ∧
             ∃ e, c = Throw e) ∨
            (∃ ev, is_read ev = true ∧
                   evs = [Fetch (baseUrl args +:+ endpoint args)
                            (request_init args p); ev])))).
Proof.
  destruct (String.eqb_spec (baseUrl args) EmptyString) as [Hb|Hb].
  - rewrite apiTemplate_base_url_missing by done.
    eexists _, []. rewrite app_nil_r. split; [done |]. left. split; [done | eexists; reflexivity].
  - destruct (prepared args) as [p|e] eqn:Hp.
    + destruct (fetch_result (full_url args) (request_init args p))
        as [response|e] eqn:Hf.
      * destruct (response_ok response) eqn:Hok.
        -- rewrite (apiTemplate_success _ _ p response) by done.
           destruct (parseResponse_one_read response
                       (finalType_of (default (NotNull Auto) (responseType args))
                          response)
                       (tr ++ [Fetch (full_url args) (request_init args p)]))
             as (c & ev & -> & Hev).
           eexists c, [_; ev]. rewrite <- app_assoc. split; [done |].
           right. exists p. split; [done |]. right. by exists ev.
        -- rewrite (apiTemplate_http_failure _ _ p response) by done. cbv zeta.
           destruct (_ || _); eexists _, [_; _]; (split; [done |]);
             right; exists p; (split; [done |]); right;
             eexists; (split; [| reflexivity]); reflexivity.
      * rewrite (apiTemplate_fetch_throws _ _ p e) by done.
        eexists _, [_]. split; [done |]. right. exists p. split; [done |].
        left. split; [done | eexists; reflexivity].
    + rewrite (apiTemplate_prepare_throws _ _ e) by done.
      eexists _, []. rewrite app_nil_r. split; [done |]. left. split; [done | eexists; reflexivity].
Qed.

(** X8.  When the call to the transport is rejected, [apiTemplate]
    rejects with the very same error, not turned into an error with
    status and data, and no body is read. *)
Theorem fetch_rejection_propagates fetch_result (args : ApiTemplateArguments)
    (p : gmap string string * CrossBody) (e : JsError) (tr : Trace) :
  baseUrl args ≠ EmptyString →
  prepared args = Return p →
  fetch_result (full_url args) (request_init args p) = Throw e →
  apiTemplate fetch_result args tr
  = (Throw e, tr ++ [Fetch (full_url args) (request_init args p)]).
Proof. apply apiTemplate_fetch_throws. Qed.

Lemma fetch_rejection_propagates_witness :
  apiTemplate (fun _ _ => Throw network_error) sample_args []
  = (Throw network_error, [sample_fetch]).
Proof.
  refine (fetch_rejection_propagates (fun _ _ => Throw network_error)
            sample_args sample_prepared network_error [] _ _ _).
  - discriminate.
  - vm_compute. reflexivity.
  - reflexivity.
Defined.

(** X9.  On a response with a success status the failure of the JSON
    read is not swallowed: when the final type is json and the read
    throws, [apiTemplate] rejects with the error of the read itself,
    which is not an error with status and data.  (On a non-success
    status the same failure is turned into a [null] payload.) *)
Theorem json_read_failure_propagates fetch_result (args : ApiTemplateArguments)
    (p : gmap string string * CrossBody) (response : Response)
    (e : JsError) (tr : Trace) :
  baseUrl args ≠ EmptyString →
  prepared args = Return p →
  fetch_result (full_url args) (request_init args p) = Return response →
  response_ok response = true →
  finalType_of (default (NotNull Auto) (responseType args)) response = Json →
  response_json response = Throw e →
  apiTemplate fetch_result args tr
  = (Throw e, tr ++ [Fetch (full_url args) (request_init args p); ReadJson]).
Proof.
  intros Hb Hp Hf Hok Hty Hj.
  rewrite (apiTemplate_success _ _ p response), Hty by done.
  unfold parseResponse, json, perform, mbind, async_bind. rewrite Hj.
  by rewrite <- app_assoc.
Qed.

Lemma json_read_failure_propagates_witness :
  apiTemplate (fun _ _ => Return broken_json_response) sample_args []
  = (Throw syntax_error, [sample_fetch; ReadJson]).
Proof.
  refine (json_read_failure_propagates (fun _ _ => Return broken_json_response)
            sample_args sample_prepared broken_json_response syntax_error []
            _ _ _ _ _ _).
  - discriminate.
  - vm_compute. reflexivity.
  - reflexivity.
  - reflexivity.
  - vm_compute. reflexivity.
  - reflexivity.
Defined.

(** X10.  An explicit [responseType] of text overrides the content
    type: a response with a success status is then returned as its raw
    text whatever its headers say, the body is not parsed as JSON, and
    the failure marker is not looked for. *)
Theorem explicit_text_skips_json fetch_result (args : ApiTemplateArguments)
    (p : gmap string string * CrossBody) (response : Response) (tr : Trace) :
  baseUrl args ≠ EmptyString →
  prepared args = Return p →
  fetch_result (full_url args) (request_init args p) = Return response →
  response_ok response = true →
  responseType args = Some (NotNull Text) →
  apiTemplate fetch_result args tr
  = (JsString <$> response_text response,
     tr ++ [Fetch (full_url args) (request_init args p); ReadText]).
Proof.
  intros Hb Hp Hf Hok Hty.
  rewrite (apiTemplate_success _ _ p response), Hty by done.
  unfold parseResponse, text, perform. simpl. by rewrite <- app_assoc.
Qed.

Lemma explicit_text_skips_json_witness :
  apiTemplate (fun _ _ => Return marked_text_response) text_args []
  = (Return (JsString "{...}"),
     [Fetch (full_url text_args) (request_init text_args sample_prepared);
      ReadText]).
Proof.
  refine (explicit_text_skips_json (fun _ _ => Return marked_text_response)
            text_args sample_prepared marked_text_response [] _ _ _ _ _).
  - discriminate.
  - vm_compute. reflexivity.
  - reflexivity.
  - reflexivity.
  - reflexivity.
Defined.

(** X11.  For a non-success status whose content type does not name
    JSON, a text body is both the data and the message of the
    rejection; an empty body leaves the fallback with the status code
    as the message. *)
Theorem http_failure_text_message fetch_result (args : ApiTemplateArguments)
    (p : gmap string string * CrossBody) (response : Response)
    (body : string) (tr : Trace) :
  baseUrl args ≠ EmptyString →
  prepared args = Return p →
  fetch_result (full_url args) (request_init args p) = Return response →
  response_ok response = false →
  ¬ declares_json
      (default EmptyString (response_headers_get response "content-type")) →
  response_text response = Return body →
  apiTemplate fetch_result args tr
  = (Throw (api_error
              (if String.eqb body EmptyString
               then "API error (" +:+ Str.of_Z (response_status response) +:+ ")"
               else body)
              (response_status response) (JsString body)),
     tr ++ [Fetch (full_url args) (request_init args p); ReadText]).
Proof.
  intros Hb Hp Hf Hok Hct Ht.
  rewrite (apiTemplate_http_failure _ _ p response) by done. cbv zeta.
  unfold header_or_empty.
  destruct (Str.includes _ "application/json" || Str.includes _ "+json") eqn:E.
  - exfalso. by apply Hct, declares_json_test.
  - rewrite Ht. unfold fmap, completion_fmap, or_null, getErrorMessage.
    cbn [truthy]. by destruct (String.eqb body EmptyString).
Qed.

Lemma http_failure_text_message_witness :
  apiTemplate (fun _ _ => Return empty_error_response) sample_args []
  = (Throw (api_error "API error (502)" 502 (JsString EmptyString)),
     [sample_fetch; ReadText]).
Proof.
  refine (http_failure_text_message (fun _ _ => Return empty_error_response)
            sample_args sample_prepared empty_error_response EmptyString []
            _ _ _ _ _ _).
  - discriminate.
  - vm_compute. reflexivity.
  - reflexivity.
  - reflexivity.
  - intros H. apply declares_json_test in H. vm_compute in H. discriminate H.
  - reflexivity.
Defined.

Lemma first_non_empty_truthy (vs : list JsValue) (v : JsValue) :
  first_non_empty vs = Some v → truthy v = true.
Proof.
  induction vs as [|x vs IH]; simpl; [done |].
  destruct (truthy x) eqn:Ex; [| exact IH]. by intros [= <-].
Qed.

(** X12.  Error-message extraction gives either the fallback or a
    truthy value taken from the payload; with a non-empty fallback its
    result is never [undefined], [null], [false], zero or the empty
    string. *)
Theorem getErrorMessage_never_empty (errorData : JsValue) (fallback : string) :
  (getErrorMessage errorData fallback = JsString fallback ∨
   truthy (getErrorMessage errorData fallback) = true) ∧
  (fallback ≠ EmptyString →
   truthy (getErrorMessage errorData fallback) = true).
Proof.
  assert (getErrorMessage errorData fallback = JsString fallback ∨
          truthy (getErrorMessage errorData fallback) = true) as H.
  { unfold getErrorMessage.
    destruct (truthy errorData) eqn:Et; simpl; [| by left].
    destruct (String.eqb (typeof errorData) "string"); [by right |].
    destruct (String.eqb (typeof errorData) "object"); [| by left].
    rewrite js_or_chain.
    destruct (first_non_empty _) as [v|] eqn:Ev; simpl; [| by left].
    right. by apply (first_non_empty_truthy _ _ Ev). }
  split; [exact H |].
  intros Hf. destruct H as [-> | H]; [| exact H]. by apply truthy_string.
Qed.

(** X13.  A logical failure whose body holds none of the five message
    fields is reported with the message [Operation failed]; the marker
    field [type] itself is never taken for the message. *)
Theorem logical_failure_default_message (response : Response) (body : JsValue)
    (tr : Trace) :
  response_json response = Return body →
  has_failure_marker body = true →
  first_non_empty (get body <$> probed_fields) = None →
  parseResponse response Json tr
  = (Throw (api_error "Operation failed" 400 body), tr ++ [ReadJson]).
Proof.
  intros Hj Hm Hnone. rewrite (parseResponse_json _ body), Hm by done.
  assert (getErrorMessage body "Operation failed" = JsString "Operation failed")
    as ->; [| done].
  assert (∀ f, get body "message" ||| get body "error" ||| get body "detail"
               ||| get body "msg" ||| get body "title" ||| f = f) as Hc.
  { intros f. rewrite js_or_chain.
    change [get body "message"; get body "error"; get body "detail";
            get body "msg"; get body "title"]
      with (get body <$> probed_fields).
    by rewrite Hnone. }
  unfold getErrorMessage.
  destruct body as [| | | | | |ps|k h ps]; try discriminate Hm;
    cbn [truthy negb typeof]; simpl String.eqb; cbv iota; apply Hc.
Qed.

Lemma logical_failure_default_message_witness :
  parseResponse bare_marked_response Json []
  = (Throw (api_error "Operation failed" 400
              (JsObject [("type", JsString "FALSE")])), [ReadJson]).
Proof.
  refine (logical_failure_default_message bare_marked_response
            (JsObject [("type", JsString "FALSE")]) [] _ _ _); reflexivity.
Defined.

(** X14.  On a transport that offers neither [blob] nor [arrayBuffer],
    a response with a success status that is classified as blob is
    returned as its text: the body is read once as text and no file
    name is attached. *)
Theorem blob_degrades_to_text fetch_result (args : ApiTemplateArguments)
    (p : gmap string string * CrossBody) (response : Response) (tr : Trace) :
  baseUrl args ≠ EmptyString →
  prepared args = Return p →
  fetch_result (full_url args) (request_init args p) = Return response →
  response_ok response = true →
  finalType_of (default (NotNull Auto) (responseType args)) response = Blob →
  response_blob response = None →
  response_arrayBuffer response = None →
  apiTemplate fetch_result args tr
  = (JsString <$> response_text response,
     tr ++ [Fetch (full_url args) (request_init args p); ReadText]).
Proof.
  intros Hb Hp Hf Hok Hty Hblob Hbuf.
  rewrite (apiTemplate_success _ _ p response), Hty by done.
  unfold parseResponse. rewrite Hblob, Hbuf.
  unfold text, perform. by rewrite <- app_assoc.
Qed.

Lemma blob_degrades_to_text_witness :
  apiTemplate (fun _ _ => Return legacy_image_response) sample_args []
  = (Return (JsString "PNG"), [sample_fetch; ReadText]).
Proof.
  refine (blob_degrades_to_text (fun _ _ => Return legacy_image_response)
            sample_args sample_prepared legacy_image_response []
            _ _ _ _ _ _ _).
  - discriminate.
  - vm_compute. reflexivity.
  - reflexivity.
  - reflexivity.
  - vm_compute. reflexivity.
  - reflexivity.
  - reflexivity.
Defined.

Lemma parseResponse_throws (response : Response) (finalType : ResponseType)
    (e : JsError) (tr tr' : Trace) :
  parseResponse response finalType tr = (Throw e, tr') →
  response_json response = Throw e ∨
  response_text response = Throw e ∨
  response_blob response = Some (Throw e) ∨
  response_arrayBuffer response = Some (Throw e) ∨
  (∃ body, response_json response = Return body ∧
           has_failure_marker body = true ∧
           e = api_error (js_String (getErrorMessage body "Operation failed"))
                 400 body).
Proof.
  unfold parseResponse, json, text, blob, arrayBuffer, perform, mbind, async_bind.
  destruct finalType.
  - destruct (response_text response); simpl; intros [= <-]; auto.
  - destruct (response_json response) as [body|e'] eqn:Ej.
    + unfold throwIfOperationFailed. rewrite failure_marker_test.
      destruct (has_failure_marker body) eqn:Em; [| done].
      unfold throw. rewrite makeApiError_fields by apply getErrorMessage_defined.
      intros [= <- _]. do 4 right. by exists body.
    + intros [= <- _]. auto.
  - destruct (response_blob response) as [[h|e']|].
    + done.
    + simpl. intros [= <- _]. auto.
    + destruct (response_arrayBuffer response) as [[h|e']|].
      * done.
      * simpl. intros [= <- _]. auto 6.
      * destruct (response_text response); simpl; intros [= <-]; auto.
  - destruct (response_text response); simpl; intros [= <-]; auto.
  - destruct (response_arrayBuffer response) as [[h|e']|].
    + done.
    + simpl. intros [= <- _]. auto 6.
    + destruct (response_text response); simpl; intros [= <-]; auto.
Qed.

(** X15.  On a response with a success status [apiTemplate] rejects
    only for one of two reasons: a read of the body threw, and then
    the rejection is that very error; or the JSON body carries the
    failure marker, and then it is the error with status 400 and the
    body as data.  It raises no other error of its own. *)
Theorem success_rejections fetch_result (args : ApiTemplateArguments)
    (p : gmap string string * CrossBody) (response : Response)
    (e : JsError) (tr tr' : Trace) :
  baseUrl args ≠ EmptyString →
  prepared args = Return p →
  fetch_result (full_url args) (request_init args p) = Return response →
  response_ok response = true →
  apiTemplate fetch_result args tr = (Throw e, tr') →
  response_json response = Throw e ∨
  response_text response = Throw e ∨
  response_blob response = Some (Throw e) ∨
  response_arrayBuffer response = Some (Throw e) ∨
  (∃ body, response_json response = Return body ∧
           has_failure_marker body = true ∧
           e = api_error (js_String (getErrorMessage body "Operation failed"))
                 400 body).
Proof.
  intros Hb Hp Hf Hok. rewrite (apiTemplate_success _ _ p response) by done.
  apply parseResponse_throws.
Qed.

Lemma success_rejections_witness :
  apiTemplate (fun _ _ => Return broken_json_response) sample_args []
  = (Throw syntax_error, [sample_fetch; ReadJson]) ∧
  (response_json broken_json_response = Throw syntax_error ∨
   response_text broken_json_response = Throw syntax_error ∨
   response_blob broken_json_response = Some (Throw syntax_error) ∨
   response_arrayBuffer broken_json_response = Some (Throw syntax_error) ∨
   (∃ body, response_json broken_json_response = Return body ∧
            has_failure_marker body = true ∧
            syntax_error
            = api_error (js_String (getErrorMessage body "Operation failed"))
                400 body)).
Proof.
  assert (apiTemplate (fun _ _ => Return broken_json_response) sample_args []
          = (Throw syntax_error, [sample_fetch; ReadJson])) as Hrun
    by (vm_compute; reflexivity).
  split; [exact Hrun |].
  refine (success_rejections (fun _ _ => Return broken_json_response)
            sample_args sample_prepared broken_json_response syntax_error
            [] _ _ _ _ _ Hrun).
  - discriminate.
  - vm_compute. reflexivity.
  - reflexivity.
  - reflexivity.
Defined.

(** * The file name of a download *)

Lemma fold_case_all_app (a b : string) :
  fold_case_all (a +:+ b) = fold_case_all a +:+ fold_case_all b.
Proof. induction a as [|c a IH]; simpl; [done | by rewrite IH]. Qed.

Lemma fold_case_dquote (c : ascii) :
  FilenameRegex.fold_case c = FilenameRegex.fold_case Str.dquote → c = Str.dquote.
Proof.
  destruct c as [[] [] [] [] [] [] [] []]; vm_compute; intros H;
    first [reflexivity | discriminate H].
Qed.

Lemma quote_free_cons (c : ascii) (s : string) :
  quote_free (String c s) → c ≠ Str.dquote ∧ quote_free s.
Proof.
  intros H. split.
  - intros ->. by apply (H EmptyString s).
  - intros before rest ->. by apply (H (String c before) rest).
Qed.

Lemma quote_free_test (s : string) :
  Str.includes s (String Str.dquote EmptyString) = false → quote_free s.
Proof.
  intros Hi before rest ->.
  assert (Str.includes (before +:+ String Str.dquote rest)
            (String Str.dquote EmptyString) = true) as Ht; [| congruence].
  apply includes_spec. by exists before, rest.
Qed.

Lemma literal_sound (p s rest : string) :
  FilenameRegex.literal p s = Some rest →
  ∃ lit, s = lit +:+ rest ∧ same_ignoring_case lit p.
Proof.
  unfold same_ignoring_case. revert s.
  induction p as [|a p IH]; intros s; simpl.
  - destruct s; intros [= <-]; by exists EmptyString.
  - destruct s as [|b s]; [done |].
    destruct (Ascii.eqb_spec (FilenameRegex.fold_case a) (FilenameRegex.fold_case b))
      as [Hab|Hab]; [| done].
    intros H. destruct (IH _ H) as (lit & -> & Hlit).
    exists (String b lit). simpl. by rewrite Hlit, Hab.
Qed.

Lemma literal_complete (p lit rest : string) :
  same_ignoring_case lit p →
  FilenameRegex.literal p (lit +:+ rest) = Some rest.
Proof.
  unfold same_ignoring_case. revert lit.
  induction p as [|a p IH]; intros lit; simpl.
  - destruct lit; [| done]. intros _. by destruct rest.
  - destruct lit as [|b lit]; [done |]. simpl. intros [= Hab Hlit].
    rewrite Hab, Ascii.eqb_refl. by apply IH.
Qed.

Lemma unquoted_sound (s run rest : string) :
  FilenameRegex.unquoted s = (run, rest) →
  s = run +:+ rest ∧ quote_free run ∧
  (rest = EmptyString ∨ ∃ r, rest = String Str.dquote r).
Proof.
  revert run rest. induction s as [|c s IH]; intros run rest; simpl.
  - intros [= <- <-]. split; [done |]. split; [| by left].
    intros before r H. by destruct before.
  - destruct (Ascii.eqb_spec c Str.dquote) as [->|Hc].
    + intros [= <- <-]. split; [done |]. split; [| right; by eexists].
      intros before r H. by destruct before.
    + destruct (FilenameRegex.unquoted s) as [run' rest'].
      intros [= <- <-]. destruct (IH _ _ eq_refl) as (-> & Hq & Hr).
      split; [done |]. split; [| done].
      intros before r H. destruct before as [|b before]; simpl in H.
      * injection H as -> _. done.
      * injection H as _ H. by apply (Hq before r).
Qed.

Lemma unquoted_complete (name rest : string) :
  quote_free name →
  FilenameRegex.unquoted (name +:+ String Str.dquote rest)
  = (name, String Str.dquote rest).
Proof.
  induction name as [|c name IH]; intros Hq; simpl.
  - by rewrite ?Ascii.eqb_refl.
  - apply quote_free_cons in Hq as [Hc Hq].
    apply Ascii.eqb_neq in Hc. rewrite Hc. by rewrite IH.
Qed.

Lemma here_sound (s group : string) :
  FilenameRegex.here s = Some group →
  group ≠ EmptyString ∧ quote_free group ∧
  ∃ lit rest, s = lit +:+ Str.quoted group +:+ rest ∧
              same_ignoring_case lit "filename=".
Proof.
  unfold FilenameRegex.here.
  destruct (FilenameRegex.literal _ s) as [after|] eqn:Hl; [| done].
  destruct (FilenameRegex.unquoted after) as [run tail] eqn:Hu.
  destruct run as [|c run]; [done |]. destruct tail as [|d tail]; [done |].
  intros [= <-].
  apply unquoted_sound in Hu as (-> & Hq & [Hr | [r Hr]]); [done |].
  injection Hr as -> ->.
  apply literal_sound in Hl as (lit & -> & Hlit).
  split; [done |]. split; [done |].
  unfold same_ignoring_case in Hlit.
  assert (∃ lit0 q, lit = lit0 +:+ String q EmptyString ∧
                    fold_case_all lit0 = fold_case_all "filename=" ∧
                    FilenameRegex.fold_case q = FilenameRegex.fold_case Str.dquote)
    as (lit0 & q & -> & H0 & Hq').
  { do 10 (destruct lit as [|? lit]; [discriminate Hlit |]).
    destruct lit; [| discriminate Hlit].
    simpl in Hlit. injection Hlit as H1 H2 H3 H4 H5 H6 H7 H8 H9 H10.
    eexists (String _ (String _ (String _ (String _ (String _ (String _
              (String _ (String _ (String _ EmptyString))))))))), _.
    split; [reflexivity |]. split; [| exact H10]. simpl.
    by rewrite H1, H2, H3, H4, H5, H6, H7, H8, H9. }
  apply fold_case_dquote in Hq' as ->.
  exists lit0, r. split; [| exact H0].
  unfold Str.quoted. rewrite !append_assoc. simpl. by rewrite !append_assoc.
Qed.

Lemma exec_sound (s group : string) :
  FilenameRegex.exec s = Some group →
  ∃ before s', s = before +:+ s' ∧ FilenameRegex.here s' = Some group.
Proof.
  induction s as [|c s IH].
  - vm_compute. done.
  - cbn [FilenameRegex.exec].
    destruct (FilenameRegex.here (String c s)) as [g|] eqn:Hh.
    + intros [= ->]. by exists EmptyString, (String c s).
    + intros H. destruct (IH H) as (before & s' & -> & Hs').
      by exists (String c before), s'.
Qed.

(** X16.  The file name that [getFilenameFromResponse] attaches is
    [null] or a string taken from the [content-disposition] header: it
    is not empty, holds no double quote, and stands in the header
    between double quotes right after the word [filename=], whose
    letters may be in either case. *)
Theorem getFilenameFromResponse_sound (response : Response) :
  getFilenameFromResponse response = JsNull ∨
  ∃ cd name before lit rest,
    response_headers_get response "content-disposition" = Some cd ∧
    getFilenameFromResponse response = JsString name ∧
    name ≠ EmptyString ∧ quote_free name ∧
    same_ignoring_case lit "filename=" ∧
    cd = before +:+ lit +:+ Str.quoted name +:+ rest.
Proof.
  unfold getFilenameFromResponse.
  destruct (response_headers_get response "content-disposition") as [cd|];
    [| by left].
  destruct (String.eqb cd EmptyString); [by left |].
  destruct (FilenameRegex.exec cd) as [name|] eqn:He; [| by left].
  right. apply exec_sound in He as (before & s' & -> & Hh).
  apply here_sound in Hh as (Hne & Hq & lit & rest & -> & Hlit).
  by exists (before +:+ lit +:+ Str.quoted name +:+ rest), name, before, lit, rest.
Qed.

Lemma here_complete (lit name rest : string) :
  same_ignoring_case lit "filename=" →
  name ≠ EmptyString →
  quote_free name →
  FilenameRegex.here (lit +:+ Str.quoted name +:+ rest) = Some name.
Proof.
  intros Hlit Hne Hq. unfold FilenameRegex.here.
  assert (lit +:+ Str.quoted name +:+ rest
          = (lit +:+ String Str.dquote EmptyString)
              +:+ (name +:+ String Str.dquote rest)) as ->.
  { unfold Str.quoted. rewrite !append_assoc. simpl. by rewrite !append_assoc. }
  rewrite literal_complete.
  - rewrite unquoted_complete by done. by destruct name.
  - unfold same_ignoring_case in *. by rewrite !fold_case_all_app, Hlit.
Qed.

Lemma exec_here (s group : string) :
  FilenameRegex.here s = Some group → FilenameRegex.exec s = Some group.
Proof. intros H. destruct s; cbn [FilenameRegex.exec]; by rewrite H. Qed.

Lemma exec_anywhere (before s : string) :
  is_Some (FilenameRegex.exec s) → is_Some (FilenameRegex.exec (before +:+ s)).
Proof.
  intros H. induction before as [|c before IH]; [done |].
  simpl String.append. cbn [FilenameRegex.exec].
  by destruct (FilenameRegex.here _).
Qed.

(** X17.  A header that starts with [filename=] (in any case of the
    letters) and a non-empty name without double quotes between
    double quotes gives back that name; when something stands before
    it, a file name is still found (the leftmost one). *)
Theorem filename_round_trip (response : Response)
    (lit name before rest : string) :
  same_ignoring_case lit "filename=" →
  name ≠ EmptyString →
  quote_free name →
  (response_headers_get response "content-disposition"
   = Some (lit +:+ Str.quoted name +:+ rest) →
   getFilenameFromResponse response = JsString name) ∧
  (response_headers_get response "content-disposition"
   = Some (before +:+ lit +:+ Str.quoted name +:+ rest) →
   ∃ found, getFilenameFromResponse response = JsString found).
Proof.
  intros Hlit Hne Hq.
  pose proof (here_complete lit name rest Hlit Hne Hq) as Hh.
  assert (∃ c lit', lit = String c lit') as (c & lit' & ->).
  { destruct lit; [discriminate Hlit | by eexists _, _]. }
  unfold getFilenameFromResponse. split; intros ->.
  - assert (String.eqb (String c lit' +:+ Str.quoted name +:+ rest)
              EmptyString = false) as -> by done.
    by rewrite (exec_here _ _ Hh).
  - assert (String.eqb (before +:+ String c lit' +:+ Str.quoted name +:+ rest)
              EmptyString = false) as -> by (by destruct before).
    destruct (exec_anywhere before _ (mk_is_Some _ _ (exec_here _ _ Hh)))
      as [found ->].
    by exists found.
Qed.

Lemma filename_round_trip_witness :
  ∃ found, getFilenameFromResponse download_response = JsString found.
Proof.
  refine (proj2 (filename_round_trip download_response
                   "FileName=" "report.pdf" "attachment; " EmptyString
                   _ _ _) _).
  - reflexivity.
  - discriminate.
  - apply quote_free_test. vm_compute. reflexivity.
  - reflexivity.
Defined.

(** * The part played by [responseType] *)

Lemma same_request_prepared (a1 a2 : ApiTemplateArguments) :
  same_request a1 a2 →
  prepared a1 = prepared a2 ∧ full_url a1 = full_url a2 ∧
  (∀ p, request_init a1 p = request_init a2 p).
Proof.
  intros (Hb & He & Hm & Hp & Ha & Ht & Hf).
  unfold prepared, prepareRequest, full_url, request_init, effective_method.
  cbn [normalizedArgs isFormData isAuthenticationRequired token method payload].
  by rewrite Hb, He, Hm, Hp, Ha, Ht, Hf.
Qed.

(** X18.  A [responseType] that is absent, [null] or [auto] means the
    same: two calls that differ only in which of the three they give
    run alike, with the final type found by the classifier. *)
Theorem automatic_response_types_agree fetch_result
    (a1 a2 : ApiTemplateArguments) (tr : Trace) :
  same_request a1 a2 →
  automatic (responseType a1) →
  automatic (responseType a2) →
  apiTemplate fetch_result a1 tr = apiTemplate fetch_result a2 tr.
Proof.
  intros Hs H1 H2. destruct (same_request_prepared a1 a2 Hs) as (Hp & Hu & Hi).
  destruct Hs as (Hb & _).
  destruct (String.eqb_spec (baseUrl a1) EmptyString) as [Hb1|Hb1].
  - rewrite !apiTemplate_base_url_missing by congruence. done.
  - assert (baseUrl a2 ≠ EmptyString) as Hb2 by congruence.
    destruct (prepared a1) as [p|e] eqn:Hp1.
    + destruct (fetch_result (full_url a1) (request_init a1 p))
        as [response|e] eqn:Hf.
      * assert (fetch_result (full_url a2) (request_init a2 p) = Return response)
          as Hf2 by (by rewrite <- Hu, <- Hi).
        destruct (response_ok response) eqn:Hok.
        -- rewrite (apiTemplate_success _ a1 p response) by done.
           rewrite (apiTemplate_success _ a2 p response) by done.
           rewrite Hu, Hi.
           assert (∀ rt, automatic rt →
                     finalType_of (default (NotNull Auto) rt) response
                     = detectResponseType response) as Hauto.
           { by intros rt [-> | [-> | ->]]. }
           by rewrite !Hauto.
        -- rewrite (apiTemplate_http_failure _ a1 p response) by done.
           rewrite (apiTemplate_http_failure _ a2 p response) by done.
           by rewrite Hu, Hi.
      * assert (fetch_result (full_url a2) (request_init a2 p) = Throw e)
          as Hf2 by (by rewrite <- Hu, <- Hi).
        rewrite (apiTemplate_fetch_throws _ a1 p e) by done.
        rewrite (apiTemplate_fetch_throws _ a2 p e) by done.
        by rewrite Hu, Hi.
    + rewrite (apiTemplate_prepare_throws _ a1 e) by done.
      by rewrite (apiTemplate_prepare_throws _ a2 e) by done.
Qed.

Lemma automatic_response_types_agree_witness :
  apiTemplate (fun _ _ => Return marked_response) sample_args []
  = apiTemplate (fun _ _ => Return marked_response) null_type_args [].
Proof.
  refine (automatic_response_types_agree (fun _ _ => Return marked_response)
            sample_args null_type_args [] _ _ _).
  - repeat split.
  - by left.
  - right. by left.
Defined.

(** X19.  The handling of a non-success status takes no account of
    [responseType]: two calls that differ only in it reject alike,
    after the same single read of the error body. *)
Theorem failure_ignores_response_type fetch_result
    (a1 a2 : ApiTemplateArguments) (p : gmap string string * CrossBody)
    (response : Response) (tr : Trace) :
  same_request a1 a2 →
  baseUrl a1 ≠ EmptyString →
  prepared a1 = Return p →
  fetch_result (full_url a1) (request_init a1 p) = Return response →
  response_ok response = false →
  apiTemplate fetch_result a1 tr = apiTemplate fetch_result a2 tr.
Proof.
  intros Hs Hb1 Hp1 Hf Hok.
  destruct (same_request_prepared a1 a2 Hs) as (Hp & Hu & Hi).
  destruct Hs as (Hb & _).
  rewrite (apiTemplate_http_failure _ a1 p response) by done.
  rewrite (apiTemplate_http_failure _ a2 p response);
    [by rewrite Hu, Hi | congruence | congruence | by rewrite <- Hu, <- Hi | done].
Qed.

Lemma failure_ignores_response_type_witness :
  apiTemplate (fun _ _ => Return not_found_response) sample_args []
  = apiTemplate (fun _ _ => Return not_found_response) text_args [].
Proof.
  refine (failure_ignores_response_type (fun _ _ => Return not_found_response)
            sample_args text_args sample_prepared not_found_response []
            _ _ _ _ _).
  - repeat split.
  - discriminate.
  - vm_compute. reflexivity.
  - reflexivity.
  - reflexivity.
Defined.
